(** * matrixprofile.core: a shallow embedding and its specification

    The Python module [matrixprofile/core.py] is embedded function by
    function.  NumPy [float64] values are Rocq's primitive binary64 floats,
    one-dimensional arrays are lists, Python integers are [Z], and a call
    that can raise returns a [result]. *)

From Stdlib Require Import ZArith Lia Floats String.
From stdpp Require Import base numbers list.

Set Warnings "-register-all".

Local Open Scope string_scope.
Local Open Scope list_scope.
Local Open Scope Z_scope.

(** ** Python: exceptions and results *)

Module Py.

Inductive exn : Type :=
| ValueError (msg : string)
| TypeError (msg : string)
| ZeroDivisionError.

Inductive result (A : Type) : Type :=
| Ok (a : A)
| Raise (e : exn).

Arguments Ok {A} a.
Arguments Raise {A} e.

Definition bind {A B} (r : result A) (k : A -> result B) : result B :=
  match r with
  | Ok a => k a
  | Raise e => Raise e
  end.

Definition raises {A} (r : result A) : Prop :=
  match r with Ok _ => False | Raise _ => True end.

(** [math.ceil(a / b)] under [from __future__ import division]: the float
    quotient of two integers, rounded up to an integer.  For operands
    below 2^53 in magnitude the float quotient lies on the same side of
    every integer as the exact quotient, so the value is the integer
    ceiling, written here with [Z]'s floor division.  [b = 0] raises
    before this is reached. *)
Definition ceil_div (a b : Z) : Z := - ((- a) / b).

(** [range(n)]: 0, 1, ..., n-1; empty when [n <= 0]. *)
Definition range (n : Z) : list Z := seqZ 0 n.

(** Normalisation of one slice bound against a sequence of length [len]:
    a negative bound counts from the end, and both are clipped to
    [0, len]. *)
Definition slice_bound (len i : Z) : Z :=
  if i <? 0 then Z.max 0 (i + len) else Z.min i len.

(** [l[start:stop]] with step 1. *)
Definition slice {A} (l : list A) (start stop : Z) : list A :=
  let len := Z.of_nat (length l) in
  let s := slice_bound len start in
  let e := slice_bound len stop in
  take (Z.to_nat (e - s)) (drop (Z.to_nat s) l).

End Py.

Import Py.

Notation "'let*' x ':=' r 'in' k" := (Py.bind r (fun x => k))
  (at level 10, x pattern, r at level 100, k at level 200).

(** ** NumPy: the parts of it that [core.py] calls

    The element type is [float64]; [is_nan], [is_infinity], the arithmetic
    and [sqrt] are the IEEE 754 operations of the primitive floats.  The
    default error state is assumed: a division by zero or an invalid
    operation yields an infinity or a NaN (and a warning), not an
    exception. *)

Module Np.

Local Open Scope float_scope.

Definition isnan (x : float) : bool := PrimFloat.is_nan x.
Definition isinf (x : float) : bool := PrimFloat.is_infinity x.
Definition inf : float := PrimFloat.infinity.

(** [np.real] on a real-valued array leaves every element as it is. *)
Definition real (x : float) : float := x.

(** A Python integer used in float arithmetic, converted to [float64]
    (round to nearest; the primitive conversion covers magnitudes below
    2^63). *)
Definition of_int (z : Z) : float :=
  if (z <? 0)%Z then - of_uint63 (Uint63Axioms.of_Z (- z))
  else of_uint63 (Uint63Axioms.of_Z z).

(** Element-wise binary operation on two 1-D arrays with broadcasting:
    equal lengths pair up, a length-1 operand is stretched, anything
    else raises. *)
Definition broadcast (f : float -> float -> float) (a b : list float)
  : result (list float) :=
  if (length a =? length b)%nat then Ok (zip_with f a b)
  else if (length a =? 1)%nat then Ok (f (default 0 (head a)) <$> b)
  else if (length b =? 1)%nat then Ok ((fun x => f x (default 0 (head b))) <$> a)
  else Raise (ValueError "operands could not be broadcast together").

(** [np.any] on a boolean array. *)
Definition any (a : list bool) : bool := existsb id a.

(** [a[start:stop] = v] on a 1-D array: the slice bounds are normalised
    as for reading and the array keeps its length. *)
Definition fill_slice (a : list float) (start stop : Z) (v : float) : list float :=
  let len := Z.of_nat (length a) in
  let s := slice_bound len start in
  let e := slice_bound len stop in
  list_inserts (Z.to_nat s) (replicate (Z.to_nat (e - s)) v) a.

(** The element at flat offset [k] of the buffer of [a]. *)
Definition item (a : list float) (k : Z) : float := default 0 (a !! Z.to_nat k).

(** One block of NumPy's pairwise summation, for a row of 8 to 128
    elements: eight accumulators start from the first eight elements and
    take in every further full group of eight, they are combined as
    ((r0+r1)+(r2+r3))+((r4+r5)+(r6+r7)), and the up to seven elements left
    over are added one by one. *)
Definition block_sum (a : list float) : float :=
  let groups := ((length a - 8) / 8)%nat in
  let st :=
    Nat.iter groups
      (fun st : list float * list float =>
         (zip_with PrimFloat.add st.1 (take 8 st.2), drop 8 st.2))
      (take 8 a, drop 8 a) in
  let res :=
    match st.1 with
    | [r0; r1; r2; r3; r4; r5; r6; r7] =>
        ((r0 + r1) + (r2 + r3)) + ((r4 + r5) + (r6 + r7))
    | _ => 0
    end in
  foldl PrimFloat.add res st.2.

(** NumPy's pairwise summation of one row: fewer than 8 elements are added
    left to right from 0, up to 128 go through one block, and a longer row
    is split near its middle, at a multiple of 8, into two rows summed the
    same way.  The recursion is on a counter that the length of the row
    bounds. *)
Fixpoint pairwise_sum_upto (depth : nat) (a : list float) : float :=
  let n := length a in
  if (n <? 8)%nat then foldl PrimFloat.add 0 a
  else if (n <=? 128)%nat then block_sum a
  else
    match depth with
    | O => block_sum a
    | S depth =>
        let n2 := (n / 2 - (n / 2) mod 8)%nat in
        pairwise_sum_upto depth (take n2 a) + pairwise_sum_upto depth (drop n2 a)
    end.

Definition pairwise_sum (a : list float) : float :=
  pairwise_sum_upto (length a) a.

(** [np.add.reduce] along one row: the result starts from the identity 0
    and the pairwise sum of the row is added to it. *)
Definition sum (row : list float) : float := 0 + pairwise_sum row.

(** [np.mean] of one row, [reduce] being the summation kernel. *)
Definition mean_with (reduce : list float -> float) (row : list float) : float :=
  reduce row / of_int (Z.of_nat (length row)).

(** [np.var] of one row with [ddof] delta degrees of freedom: the mean of
    the squared deviations from the mean, the divisor being
    [max(N - ddof, 0)]. *)
Definition var_with (reduce : list float -> float) (ddof : Z) (row : list float)
  : float :=
  let arrmean := mean_with reduce row in
  let x := (fun v => v - arrmean) <$> row in
  let x := (fun v => v * v) <$> x in
  reduce x / of_int (Z.max (Z.of_nat (length row) - ddof) 0).

(** [np.std] of one row. *)
Definition std_with (reduce : list float -> float) (ddof : Z) (row : list float)
  : float :=
  sqrt (var_with reduce ddof row).

Definition mean : list float -> float := mean_with sum.
Definition var : Z -> list float -> float := var_with sum.
Definition std : Z -> list float -> float := std_with sum.

End Np.

(** ** Python objects, as far as input validation looks at them *)

Inductive pyobj : Type :=
| PyNone
| PyFloat (x : float)
| PyList (items : list pyobj)
| PyTuple (items : list pyobj)
| PyArray (shape : list nat) (data : list pyobj).

(** The shape [np.array] gives a nested sequence: scalars have shape [()],
    a sequence of equally shaped items adds one leading axis, and items of
    different shapes have none. *)
Fixpoint shape_of (o : pyobj) : option (list nat) :=
  let seq_shape items :=
    match items with
    | [] => Some [0%nat]
    | x :: rest =>
        match shape_of x with
        | Some s =>
            if forallb (fun y => bool_decide (shape_of y = Some s)) rest
            then Some (length items :: s)
            else None
        | None => None
        end
    end in
  match o with
  | PyNone | PyFloat _ => Some []
  | PyList items => seq_shape items
  | PyTuple items => seq_shape items
  | PyArray shape _ => Some shape
  end.

(** The elements of a nested sequence in row-major order. *)
Fixpoint flat (o : pyobj) : list pyobj :=
  match o with
  | PyList items => concat (map flat items)
  | PyTuple items => concat (map flat items)
  | PyArray _ data => data
  | _ => [o]
  end.

(** [np.array(a)]; an inhomogeneous nesting is a [ValueError]
    (NumPy 1.24 and later). *)
Definition np_array (a : pyobj) : result pyobj :=
  match shape_of a with
  | Some s => Ok (PyArray s (flat a))
  | None => Raise (ValueError "setting an array element with a sequence")
  end.

(** [a.ndim]. *)
Definition ndim (a : pyobj) : result nat :=
  match a with
  | PyArray shape _ => Ok (length shape)
  | _ => Raise (TypeError "object has no attribute 'ndim'")
  end.

(** [len(a)]. *)
Definition py_len (a : pyobj) : result Z :=
  match a with
  | PyList items | PyTuple items => Ok (Z.of_nat (length items))
  | PyArray (d :: _) _ => Ok (Z.of_nat d)
  | PyArray [] _ => Raise (TypeError "len() of unsized object")
  | _ => Raise (TypeError "object has no len()")
  end.

(** ** core.py *)

Definition is_ndarray (a : pyobj) : bool :=
  match a with PyArray _ _ => true | _ => false end.

Definition is_array_like (a : pyobj) : bool :=
  match a with
  | PyList _ | PyTuple _ | PyArray _ _ => true
  | _ => false
  end.

Definition to_np_array (a : pyobj) : result pyobj :=
  if is_ndarray a then Ok a
  else if negb (is_array_like a) then
    Raise (ValueError "Unable to convert to np.ndarray!")
  else np_array a.

Definition is_one_dimensional (a : pyobj) : result bool :=
  let* d := ndim a in Ok (d =? 1)%nat.

Definition get_profile_length (ts_a ts_b : pyobj) (m : Z) : result Z :=
  let* n := py_len ts_a in Ok (n - m + 1).

(** One round of the loop of [find_skip_locations]. *)
Definition skip_step (ts : list float) (window_size : Z)
    (skip_loc : list bool) (i : Z) : list bool :=
  let segment := slice ts i (i + window_size) in
  let search := zip_with orb (Np.isinf <$> segment) (Np.isnan <$> segment) in
  if Np.any search then <[Z.to_nat i := true]> skip_loc else skip_loc.

(** [np.zeros(profile_length)] raises for a negative length. *)
Definition find_skip_locations (ts : list float) (profile_length window_size : Z)
  : result (list bool) :=
  if profile_length <? 0 then Raise (ValueError "negative dimensions are not allowed")
  else
    let skip_loc := replicate (Z.to_nat profile_length) false in
    Ok (foldl (skip_step ts window_size) skip_loc (range profile_length)).

(** [rolling_window] on a 1-D array: the strided view of shape
    [(n - window + 1, window)] with both strides equal to the element
    stride, so that entry [(i, j)] reads the buffer at offset [i + j]. *)
Definition rolling_window (a : list float) (window : Z) : result (list (list float)) :=
  let rows := Z.of_nat (length a) - window + 1 in
  if (rows <? 0) || (window <? 0) then
    Raise (ValueError "negative dimensions are not allowed")
  else
    Ok ((fun i => (fun j => Np.item a (i + j)) <$> range window) <$> range rows).

(** [moving_average] and [moving_std] for a given summation kernel of
    NumPy's reductions; core.py fixes the windows, the divisor and the
    order of the other operations, the kernel only the order in which a
    row is added up. *)
Definition moving_average_with (reduce : list float -> float)
    (a : list float) (window : Z) : result (list float) :=
  let* w := rolling_window a window in Ok (Np.mean_with reduce <$> w).

(** [np.std(..., -1)] with its default [ddof = 0]. *)
Definition moving_std_with (reduce : list float -> float)
    (a : list float) (window : Z) : result (list float) :=
  let* w := rolling_window a window in Ok (Np.std_with reduce 0 <$> w).

Definition moving_average : list float -> Z -> result (list float) :=
  moving_average_with Np.sum.

Definition moving_std : list float -> Z -> result (list float) :=
  moving_std_with Np.sum.



(** The window size [ws] is an integer and the query statistics are
    scalars; the three arrays are combined element-wise. *)
Definition distance_profile (prod : list float) (ws : Z)
    (data_mu data_sig : list float) (query_mu query_sig : float)
  : result (list float) :=
  let w := Np.of_int ws in
  let ws_mu := (fun x => w * x)%float <$> data_mu in
  let ws_mu_q := (fun x => x * query_mu)%float <$> ws_mu in
  let* num := Np.broadcast PrimFloat.sub prod ws_mu_q in
  let den := (fun x => x * query_sig)%float <$> data_sig in
  let* quot := Np.broadcast PrimFloat.div num den in
  let diff := (fun x => w - x)%float <$> quot in
  let distance_profile := (fun x => 2 * x)%float <$> diff in
  Ok (PrimFloat.sqrt <$> (Np.real <$> distance_profile)).

Definition precheck_series_and_query_1d (ts query : pyobj) : result (pyobj * pyobj) :=
  let* ts :=
    match to_np_array ts with
    | Raise (ValueError _) =>
        Raise (ValueError "Invalid ts value given. Must be array_like!")
    | r => r
    end in
  let* query :=
    match to_np_array query with
    | Raise (ValueError _) =>
        Raise (ValueError "Invalid query value given. Must be array_like!")
    | r => r
    end in
  let* ts_1d := is_one_dimensional ts in
  if negb ts_1d then Raise (ValueError "ts must be one dimensional!")
  else
    let* query_1d := is_one_dimensional query in
    if negb query_1d then Raise (ValueError "query must be one dimensional!")
    else Ok (ts, query).

(** [generate_batch_jobs(profile_length, n_jobs)]: the list of the pairs the
    generator yields, in order.  [profile_length / n_jobs] raises
    [ZeroDivisionError] for [n_jobs = 0]. *)
Definition generate_batch_jobs (profile_length n_jobs : Z) : result (list (Z * Z)) :=
  if n_jobs =? 0 then Raise ZeroDivisionError
  else
    let batch_size := ceil_div profile_length n_jobs in
    if batch_size =? profile_length then Ok [(0, profile_length)]
    else
      Ok ((fun i =>
             let start := i * batch_size in
             let end_ := (i + 1) * batch_size in
             let end_ := if end_ >? profile_length then profile_length else end_ in
             (start, end_)) <$> range n_jobs).

(** The integers of the half-open range [(start, end)]. *)
Definition in_batch (b : Z * Z) (x : Z) : Prop := b.1 <= x < b.2.

(** The profile is a [float64] array; the returned array is the mutated
    argument. *)
Definition apply_exclusion_zone (exclusion_zone : Z) (is_join : bool)
    (window_size data_length index : Z) (distance_profile : list float)
  : list float :=
  if (exclusion_zone >? 0) && negb is_join then
    let ez_start := Z.max 0 (index - exclusion_zone) in
    let ez_end := Z.min (data_length - window_size + 1) (index + exclusion_zone) in
    Np.fill_slice distance_profile ez_start ez_end Np.inf
  else distance_profile.

(** ** core.py: the remaining functions *)

Definition is_similarity_join (ts_a ts_b : pyobj) : bool :=
  is_array_like ts_a && is_array_like ts_b.

(** [ts[search] = 0] on a [float64] buffer with
    [search = np.isinf(ts) | np.isnan(ts)]: the entries under a true mask
    bit are overwritten, the others are kept. *)
Definition mask_fill (a : list float) (mask : list bool) (v : float) : list float :=
  zip_with (fun x (m : bool) => if m then v else x) a mask.

(** The two array statements of [clean_nan_inf] on the buffer of a
    [float64] array. *)
Definition clean_buffer (ts : list float) : list float :=
  let search := zip_with orb (Np.isinf <$> ts) (Np.isnan <$> ts) in
  mask_fill ts search 0%float.

(** The elements of a [float64] array; [np.isinf] raises a [TypeError] on
    an array that holds anything else. *)
Fixpoint floats_of (data : list pyobj) : result (list float) :=
  match data with
  | [] => Ok []
  | PyFloat x :: rest => let* xs := floats_of rest in Ok (x :: xs)
  | _ :: _ => Raise (TypeError "ufunc 'isinf' not supported for the input types")
  end.

(** [clean_nan_inf]; boolean-mask assignment works on an array of any
    shape and keeps the shape. *)
Definition clean_nan_inf (ts : pyobj) : result pyobj :=
  let* ts := to_np_array ts in
  match ts with
  | PyArray shape data =>
      let* xs := floats_of data in
      Ok (PyArray shape (PyFloat <$> clean_buffer xs))
  | _ => Raise (TypeError "ufunc 'isinf' not supported for the input types")
  end.

(** A record handed to [logger.warning]: the format string and its
    argument. *)
Inductive log_record : Type :=
| LogWarning (fmt : string) (arg : Z).

(** [valid_n_jobs]; [cpu_count] is what [multiprocessing.cpu_count()]
    returns on the machine, and the second component is what the call
    logs. *)
Definition valid_n_jobs (cpu_count : Z) (n_jobs : Z) : Z * list log_record :=
  let max_cpus := cpu_count in
  let n_jobs := if n_jobs <? 1 then max_cpus else n_jobs in
  let n_jobs := if n_jobs >? max_cpus then max_cpus else n_jobs in
  (n_jobs, [LogWarning "Multiprocessing with {} cpus." n_jobs]).

(** [complex128] values as (real, imaginary) pairs. *)
Definition complex : Type := float * float.

Definition of_real (x : float) : complex := (x, 0%float).

Definition complex_mul (x y : complex) : complex :=
  (x.1 * y.1 - x.2 * y.2, x.1 * y.2 + x.2 * y.1)%float.

(** Element-wise product of two 1-D complex arrays, with broadcasting. *)
Definition complex_times (a b : list complex) : result (list complex) :=
  if (length a =? length b)%nat then Ok (zip_with complex_mul a b)
  else if (length a =? 1)%nat then
    Ok (complex_mul (default (of_real 0) (head a)) <$> b)
  else if (length b =? 1)%nat then
    Ok ((fun x => complex_mul x (default (of_real 0) (head b))) <$> a)
  else Raise (ValueError "operands could not be broadcast together").

(** [np.fft.fft] and [np.fft.ifft] around a transform kernel: NumPy refuses
    an empty input and otherwise runs the kernel on it. *)
Definition np_fft (kernel : list complex -> list complex) (a : list complex)
  : result (list complex) :=
  if (length a =? 0)%nat then
    Raise (ValueError "Invalid number of FFT data points (0) specified.")
  else Ok (kernel a).

(** [fft_convolve]; the forward and inverse transform kernels of NumPy are
    parameters. *)
Definition fft_convolve (fft ifft : list complex -> list complex)
    (ts query : list float) : result (list float) :=
  let n := Z.of_nat (length ts) in
  let m := Z.of_nat (length query) in
  let* x := np_fft fft (of_real <$> ts) in
  let* zeros :=
    if n - m <? 0 then Raise (ValueError "negative dimensions are not allowed")
    else Ok (replicate (Z.to_nat (n - m)) 0%float) in
  let y := reverse query ++ zeros in
  let* y := np_fft fft (of_real <$> y) in
  let* xy := complex_times x y in
  let* z := np_fft ifft xy in
  Ok (fst <$> slice z (m - 1) n).

(** [np.convolve(a, v, mode='full')] around a convolution kernel: NumPy
    refuses an empty operand. *)
Definition np_convolve (kernel : list float -> list float -> list float)
    (a v : list float) : result (list float) :=
  if (length a =? 0)%nat then Raise (ValueError "a cannot be empty")
  else if (length v =? 0)%nat then Raise (ValueError "v cannot be empty")
  else Ok (kernel a v).

(** [sliding_dot_product]; the full-convolution kernel of NumPy is a
    parameter. *)
Definition sliding_dot_product (convolve : list float -> list float -> list float)
    (ts query : list float) : result (list float) :=
  let m := Z.of_nat (length query) in
  let n := Z.of_nat (length ts) in
  let* dp := np_convolve convolve ts (reverse query) in
  Ok (Np.real <$> slice dp (m - 1) n).

(** A full convolution by direct summation, one instance of the kernel. *)
Definition direct_convolve (a v : list float) : list float :=
  (fun k =>
     Np.sum ((fun j => Np.item a j * Np.item v (k - j))%float
               <$> seqZ (Z.max 0 (k - Z.of_nat (length v) + 1))
                        (Z.min (k + 1) (Z.of_nat (length a))
                         - Z.max 0 (k - Z.of_nat (length v) + 1))))
    <$> range (Z.of_nat (length a) + Z.of_nat (length v) - 1).

(** [np.isinf(x) | np.isnan(x)] for one element. *)
Definition nonfinite (x : float) : bool := Np.isinf x || Np.isnan x.

(** A binary64 value, seen through its specification, that is a NaN or an
    infinity. *)
Definition sf_nonfinite (x : spec_float) : bool :=
  match x with
  | S754_nan | S754_infinity _ => true
  | _ => false
  end.

(** A binary64 value that is a zero or a NaN: what a product with a zero
    factor can be. *)
Definition sf_zero_or_nan (x : spec_float) : bool :=
  match x with
  | S754_nan | S754_zero _ => true
  | _ => false
  end.

(** ** Batch planning *)

Lemma ceil_div_bounds a b :
  0 < b -> (ceil_div a b - 1) * b < a <= ceil_div a b * b.
Proof.
  intros Hb. unfold ceil_div.
  pose proof (Z.div_mod (- a) b ltac:(lia)) as Hdm.
  pose proof (Z.mod_pos_bound (- a) b Hb) as Hm.
  nia.
Qed.

Lemma ceil_div_pos a b : 1 <= a -> 0 < b -> 1 <= ceil_div a b.
Proof.
  intros Ha Hb. pose proof (ceil_div_bounds a b Hb). nia.
Qed.

Lemma generate_batch_jobs_split pl nj :
  1 <= nj ->
  ceil_div pl nj <> pl ->
  generate_batch_jobs pl nj =
    Ok ((fun i => (i * ceil_div pl nj,
                   if (i + 1) * ceil_div pl nj >? pl then pl
                   else (i + 1) * ceil_div pl nj)) <$> range nj).
Proof.
  intros Hnj Hne. unfold generate_batch_jobs.
  destruct (Z.eqb_spec nj 0); [lia|].
  destruct (Z.eqb_spec (ceil_div pl nj) pl); [contradiction|]. reflexivity.
Qed.

Lemma lookup_batch pl nj (k : nat) b :
  ((fun i => (i * ceil_div pl nj,
              if (i + 1) * ceil_div pl nj >? pl then pl
              else (i + 1) * ceil_div pl nj)) <$> range nj) !! k = Some b ->
  Z.of_nat k < nj /\
  b.1 = Z.of_nat k * ceil_div pl nj /\
  b.2 = Z.min ((Z.of_nat k + 1) * ceil_div pl nj) pl.
Proof.
  rewrite list_lookup_fmap. unfold range.
  destruct (seqZ 0 nj !! k) as [i|] eqn:Hi; [|discriminate].
  apply lookup_seqZ in Hi as [-> Hlt]. simpl. intros [= <-]. simpl.
  split; [lia|]. split; [f_equal; lia|].
  replace (0 + Z.of_nat k + 1) with (Z.of_nat k + 1) by lia.
  destruct (Z.gtb_spec ((Z.of_nat k + 1) * ceil_div pl nj) pl); lia.
Qed.

Lemma lookup_batch_inv pl nj (k : nat) :
  Z.of_nat k < nj ->
  ((fun i => (i * ceil_div pl nj,
              if (i + 1) * ceil_div pl nj >? pl then pl
              else (i + 1) * ceil_div pl nj)) <$> range nj) !! k =
    Some (Z.of_nat k * ceil_div pl nj,
          Z.min ((Z.of_nat k + 1) * ceil_div pl nj) pl).
Proof.
  intros Hk. rewrite list_lookup_fmap. unfold range.
  rewrite (lookup_seqZ_lt 0 nj k) by lia. simpl.
  replace (0 + Z.of_nat k) with (Z.of_nat k) by lia.
  do 2 f_equal.
  destruct (Z.gtb_spec ((Z.of_nat k + 1) * ceil_div pl nj) pl); lia.
Qed.

Lemma generate_batch_jobs_whole pl nj :
  nj <> 0 -> ceil_div pl nj = pl -> generate_batch_jobs pl nj = Ok [(0, pl)].
Proof.
  intros Hnj Hbs. unfold generate_batch_jobs.
  destruct (Z.eqb_spec nj 0); [contradiction|].
  rewrite Hbs, Z.eqb_refl. reflexivity.
Qed.

(** C3 fails as stated: for a profile of length 5 and 10 jobs the batch
    size is ceil(5/10) = 1, which is not 5, so the single-range case is not
    taken. *)
Lemma generate_batch_jobs_5_10_not_single :
  generate_batch_jobs 5 10 <> Ok [(0, 5)].
Proof. vm_compute. discriminate. Qed.

(** C3 (amended): whenever the batch size ceil(profile_length / n_jobs)
    equals profile_length, exactly one range (0, profile_length) is
    yielded, whatever n_jobs is; for profile_length = 5 and n_jobs = 10 the
    batch size is 1 and ten ranges are yielded, the first five of width one
    and the last five empty. *)
Theorem generate_batch_jobs_single :
  (forall profile_length n_jobs,
      n_jobs <> 0 ->
      ceil_div profile_length n_jobs = profile_length ->
      generate_batch_jobs profile_length n_jobs = Ok [(0, profile_length)]) /\
  ceil_div 5 10 = 1 /\
  generate_batch_jobs 5 10 =
    Ok [(0, 1); (1, 2); (2, 3); (3, 4); (4, 5);
        (5, 5); (6, 5); (7, 5); (8, 5); (9, 5)].
Proof.
  split; [|split; reflexivity].
  intros pl nj Hnj Hbs. apply generate_batch_jobs_whole; assumption.
Qed.

Lemma generate_batch_jobs_single_witness :
  generate_batch_jobs 7 1 = Ok [(0, 7)].
Proof.
  apply (proj1 generate_batch_jobs_single 7 1); [lia | reflexivity].
Defined.

(** C5: for profile_length >= 1 and n_jobs >= 1 the generator finishes, and
    the ranges it yields come in ascending order with every range ending
    no later than the next one starts (so they are pairwise disjoint as
    half-open intervals) and the integers they contain are exactly those of
    [0, profile_length); generate_batch_jobs(10, 3) yields (0,4), (4,8),
    (8,10). *)
Theorem generate_batch_jobs_partition profile_length n_jobs :
  1 <= profile_length -> 1 <= n_jobs ->
  exists batches,
    generate_batch_jobs profile_length n_jobs = Ok batches /\
    (forall (i j : nat) r s,
        batches !! i = Some r -> batches !! j = Some s -> (i < j)%nat ->
        r.1 < s.1 /\ r.2 <= s.1 /\ r.2 <= s.2) /\
    (forall (i j : nat) r s x,
        batches !! i = Some r -> batches !! j = Some s -> i <> j ->
        ~ (in_batch r x /\ in_batch s x)) /\
    (forall x, (exists r, r ∈ batches /\ in_batch r x) <-> 0 <= x < profile_length) /\
    generate_batch_jobs 10 3 = Ok [(0, 4); (4, 8); (8, 10)].
Proof.
  intros Hpl Hnj.
  pose proof (ceil_div_bounds profile_length n_jobs ltac:(lia)) as Hb.
  pose proof (ceil_div_pos profile_length n_jobs Hpl ltac:(lia)) as Hpos.
  destruct (Z.eq_dec (ceil_div profile_length n_jobs) profile_length) as [He|Hne].
  - exists [(0, profile_length)]. split.
    { apply generate_batch_jobs_whole; [lia | exact He]. }
    split; [|split; [|split; [|reflexivity]]].
    + intros [|i] [|j] r s Hr Hs Hij; try lia; simpl in *; discriminate.
    + intros [|i] [|j] r s x Hr Hs Hij; try lia; simpl in *; discriminate.
    + intros x. split.
      * intros (r & Hin & Hx). apply list_elem_of_singleton in Hin as ->. exact Hx.
      * intros Hx. exists (0, profile_length). split; [apply list_elem_of_singleton; reflexivity | exact Hx].
  - eexists. split; [apply generate_batch_jobs_split; assumption|].
    set (bs := ceil_div profile_length n_jobs) in *.
    assert (Hord : forall (i j : nat) r s,
               ((fun i => (i * bs, if (i + 1) * bs >? profile_length then profile_length
                                   else (i + 1) * bs)) <$> range n_jobs) !! i = Some r ->
               ((fun i => (i * bs, if (i + 1) * bs >? profile_length then profile_length
                                   else (i + 1) * bs)) <$> range n_jobs) !! j = Some s ->
               (i < j)%nat -> r.1 < s.1 /\ r.2 <= s.1 /\ r.2 <= s.2).
    { intros i j r s Hr Hs Hij.
      apply lookup_batch in Hr as (Hi & Hr1 & Hr2).
      apply lookup_batch in Hs as (Hj & Hs1 & Hs2).
      fold bs in Hr1, Hr2, Hs1, Hs2. rewrite Hr1, Hr2, Hs1, Hs2. nia. }
    split; [exact Hord|]. split; [|split; [|reflexivity]].
    + intros i j r s x Hr Hs Hij [Hxr Hxs]. unfold in_batch in *.
      destruct (Nat.lt_total i j) as [Hlt|[Heq|Hgt]]; [|contradiction|].
      * pose proof (Hord i j r s Hr Hs Hlt). lia.
      * pose proof (Hord j i s r Hs Hr Hgt). lia.
    + intros x. unfold in_batch. split.
      * intros (r & Hin & Hx). apply list_elem_of_lookup in Hin as [k Hk].
        apply lookup_batch in Hk as (Hi & Hr1 & Hr2). fold bs in Hr1, Hr2. nia.
      * intros Hx.
        pose proof (Z.div_mod x bs ltac:(lia)) as Hdm.
        pose proof (Z.mod_pos_bound x bs ltac:(lia)) as Hm.
        assert (0 <= x / bs) by (apply Z.div_pos; lia).
        assert (Hk : Z.of_nat (Z.to_nat (x / bs)) < n_jobs) by nia.
        eexists. split.
        { apply list_elem_of_lookup. exists (Z.to_nat (x / bs)).
          apply (lookup_batch_inv profile_length n_jobs _ Hk). }
        fold bs. simpl. rewrite Z2Nat.id by lia. nia.
Qed.

(** When n_jobs does not divide the work evenly the trailing ranges can be
    empty, their start lying beyond their end. *)
Example generate_batch_jobs_5_4 :
  generate_batch_jobs 5 4 = Ok [(0, 2); (2, 4); (4, 5); (6, 5)].
Proof. reflexivity. Qed.

Lemma generate_batch_jobs_partition_witness :
  exists batches,
    generate_batch_jobs 5 4 = Ok batches /\
    (forall (i j : nat) r s,
        batches !! i = Some r -> batches !! j = Some s -> (i < j)%nat ->
        r.1 < s.1 /\ r.2 <= s.1 /\ r.2 <= s.2) /\
    (forall (i j : nat) r s x,
        batches !! i = Some r -> batches !! j = Some s -> i <> j ->
        ~ (in_batch r x /\ in_batch s x)) /\
    (forall x, (exists r, r ∈ batches /\ in_batch r x) <-> 0 <= x < 5) /\
    generate_batch_jobs 10 3 = Ok [(0, 4); (4, 8); (8, 10)].
Proof.
  apply (generate_batch_jobs_partition 5 4); lia.
Defined.

(** ** Profile length *)

(** C10: get_profile_length returns len(ts_a) - m + 1 whatever the second
    series is; replacing ts_b by any other object, of any length or none,
    leaves the result unchanged. *)
Theorem get_profile_length_ignores_ts_b ts_a ts_b m :
  (forall ts_b', get_profile_length ts_a ts_b' m = get_profile_length ts_a ts_b m) /\
  (forall n, py_len ts_a = Ok n -> get_profile_length ts_a ts_b m = Ok (n - m + 1)).
Proof.
  split.
  - intros ts_b'. reflexivity.
  - intros n Hn. unfold get_profile_length. rewrite Hn. reflexivity.
Qed.

Lemma get_profile_length_ignores_ts_b_witness :
  get_profile_length (PyList [PyFloat 1; PyFloat 2; PyFloat 3; PyFloat 4])
                     (PyList [PyFloat 1]) 2 = Ok 3.
Proof.
  apply (proj2 (get_profile_length_ignores_ts_b
                  (PyList [PyFloat 1; PyFloat 2; PyFloat 3; PyFloat 4])
                  (PyList [PyFloat 1]) 2) 4).
  reflexivity.
Defined.

(** ** Input validation *)

Lemma to_np_array_ndarray shape data :
  to_np_array (PyArray shape data) = Ok (PyArray shape data).
Proof. reflexivity. Qed.

Lemma to_np_array_is_array a b : to_np_array a = Ok b -> is_ndarray b = true.
Proof.
  unfold to_np_array, np_array.
  destruct (is_ndarray a) eqn:Ha; [intros [= <-]; exact Ha|].
  destruct (negb (is_array_like a)); [discriminate|].
  destruct (shape_of a); [intros [= <-]; reflexivity | discriminate].
Qed.

Lemma to_np_array_raises a e :
  to_np_array a = Raise e -> exists msg, e = ValueError msg.
Proof.
  unfold to_np_array, np_array.
  destruct (is_ndarray a); [discriminate|].
  destruct (negb (is_array_like a)); [intros [= <-]; eauto|].
  destruct (shape_of a); [discriminate | intros [= <-]; eauto].
Qed.

(** C6 fails as stated: a one-dimensional query longer than the
    one-dimensional series passes validation. *)
Lemma precheck_accepts_longer_query :
  py_len (PyList [PyFloat 1]) = Ok 1 /\
  py_len (PyList [PyFloat 1; PyFloat 2]) = Ok 2 /\
  ~ raises (precheck_series_and_query_1d
              (PyList [PyFloat 1]) (PyList [PyFloat 1; PyFloat 2])) /\
  precheck_series_and_query_1d
    (PyList [PyFloat 1]) (PyList [PyFloat 1; PyFloat 2]) =
  Ok (PyArray [1%nat] [PyFloat 1], PyArray [2%nat] [PyFloat 1; PyFloat 2]).
Proof.
  split; [reflexivity|]. split; [reflexivity|].
  split; [intros H; exact H | reflexivity].
Qed.

(** C6 (amended): precheck_series_and_query_1d never compares lengths: two
    one-dimensional arrays are returned as they are, whatever their
    lengths n and m (also for m > n).  It raises, before any numeric work,
    a ValueError whose message names the offending argument in exactly
    four cases, tested in this order: ts cannot be converted to an array;
    else query cannot be converted to an array; else the converted ts is
    not one-dimensional; else the converted query is not one-dimensional.
    In every other case it returns the two converted arrays.  So a query
    that cannot be converted is reported before a ts that is not
    one-dimensional. *)
Theorem precheck_series_and_query_1d_spec :
  (forall n m ts_data query_data,
      precheck_series_and_query_1d (PyArray [n] ts_data) (PyArray [m] query_data) =
      Ok (PyArray [n] ts_data, PyArray [m] query_data)) /\
  (forall ts query,
      raises (to_np_array ts) ->
      precheck_series_and_query_1d ts query =
      Raise (ValueError "Invalid ts value given. Must be array_like!")) /\
  (forall ts query a,
      to_np_array ts = Ok a -> raises (to_np_array query) ->
      precheck_series_and_query_1d ts query =
      Raise (ValueError "Invalid query value given. Must be array_like!")) /\
  (forall ts query a q,
      to_np_array ts = Ok a -> to_np_array query = Ok q ->
      ndim a <> Ok 1%nat ->
      precheck_series_and_query_1d ts query =
      Raise (ValueError "ts must be one dimensional!")) /\
  (forall ts query a q,
      to_np_array ts = Ok a -> to_np_array query = Ok q ->
      ndim a = Ok 1%nat -> ndim q <> Ok 1%nat ->
      precheck_series_and_query_1d ts query =
      Raise (ValueError "query must be one dimensional!")) /\
  (forall ts query a q,
      to_np_array ts = Ok a -> to_np_array query = Ok q ->
      ndim a = Ok 1%nat -> ndim q = Ok 1%nat ->
      precheck_series_and_query_1d ts query = Ok (a, q)) /\
  precheck_series_and_query_1d (PyList [PyList [PyFloat 1]]) PyNone =
    Raise (ValueError "Invalid query value given. Must be array_like!").
Proof.
  assert (Hconv : forall ts query a q,
             to_np_array ts = Ok a -> to_np_array query = Ok q ->
             exists sa da sq dq,
               a = PyArray sa da /\ q = PyArray sq dq /\
               precheck_series_and_query_1d ts query =
               if negb (length sa =? 1)%nat
               then Raise (ValueError "ts must be one dimensional!")
               else if negb (length sq =? 1)%nat
                    then Raise (ValueError "query must be one dimensional!")
                    else Ok (a, q)).
  { intros ts query a q Hts Hq.
    apply to_np_array_is_array in Hts as Ha.
    apply to_np_array_is_array in Hq as Hb.
    destruct a as [| | | |sa da]; try discriminate Ha.
    destruct q as [| | | |sq dq]; try discriminate Hb.
    exists sa, da, sq, dq. split; [reflexivity|]. split; [reflexivity|].
    unfold precheck_series_and_query_1d. rewrite Hts, Hq. simpl.
    destruct (length sa =? 1)%nat; [|reflexivity]. simpl.
    destruct (length sq =? 1)%nat; reflexivity. }
  split; [reflexivity|]. split; [|split; [|split; [|split; [|split]]]].
  - intros ts query Hts. unfold precheck_series_and_query_1d.
    destruct (to_np_array ts) as [a|e] eqn:Ha; [contradiction|].
    destruct (to_np_array_raises _ _ Ha) as [msg ->]. reflexivity.
  - intros ts query a Hts Hq. unfold precheck_series_and_query_1d.
    rewrite Hts. simpl.
    destruct (to_np_array query) as [q|e] eqn:Hq'; [contradiction|].
    destruct (to_np_array_raises _ _ Hq') as [msg ->]. reflexivity.
  - intros ts query a q Hts Hq Hna.
    destruct (Hconv ts query a q Hts Hq) as (sa & da & sq & dq & -> & -> & ->).
    simpl in Hna. destruct (Nat.eqb_spec (length sa) 1) as [He|He];
      [congruence | reflexivity].
  - intros ts query a q Hts Hq Hna Hnq.
    destruct (Hconv ts query a q Hts Hq) as (sa & da & sq & dq & -> & -> & ->).
    simpl in Hna, Hnq. injection Hna as Hna. rewrite Hna. simpl.
    destruct (Nat.eqb_spec (length sq) 1) as [He|He];
      [congruence | reflexivity].
  - intros ts query a q Hts Hq Hna Hnq.
    destruct (Hconv ts query a q Hts Hq) as (sa & da & sq & dq & -> & -> & ->).
    simpl in Hna, Hnq. injection Hna as Hna. injection Hnq as Hnq.
    rewrite Hna, Hnq. reflexivity.
  - reflexivity.
Qed.

Lemma precheck_series_and_query_1d_spec_witness :
  precheck_series_and_query_1d (PyList [PyList [PyFloat 1]]) (PyList [PyFloat 1]) =
    Raise (ValueError "ts must be one dimensional!") /\
  precheck_series_and_query_1d (PyList [PyFloat 1]) (PyList [PyList [PyFloat 1]]) =
    Raise (ValueError "query must be one dimensional!") /\
  precheck_series_and_query_1d PyNone PyNone =
    Raise (ValueError "Invalid ts value given. Must be array_like!").
Proof.
  destruct precheck_series_and_query_1d_spec
    as (_ & Hts & _ & Hts1 & Hq1 & _).
  split; [|split].
  - apply (Hts1 (PyList [PyList [PyFloat 1]]) (PyList [PyFloat 1])
             (PyArray [1%nat; 1%nat] [PyFloat 1]) (PyArray [1%nat] [PyFloat 1]));
      [reflexivity | reflexivity | simpl; congruence].
  - apply (Hq1 (PyList [PyFloat 1]) (PyList [PyList [PyFloat 1]])
             (PyArray [1%nat] [PyFloat 1]) (PyArray [1%nat; 1%nat] [PyFloat 1]));
      [reflexivity | reflexivity | reflexivity | simpl; congruence].
  - apply (Hts PyNone PyNone). exact I.
Defined.

(** ** Skip locations *)

Lemma search_any (segment : list float) :
  Np.any (zip_with orb (Np.isinf <$> segment) (Np.isnan <$> segment)) =
  existsb nonfinite segment.
Proof.
  unfold Np.any. induction segment as [|x segment IH]; csimpl; [reflexivity|].
  unfold id at 1. f_equal. exact IH.
Qed.

Lemma skip_step_next ts ws (done_ : list bool) (rest : list bool) :
  skip_step ts ws (done_ ++ false :: rest) (Z.of_nat (length done_)) =
  done_ ++ existsb nonfinite
             (slice ts (Z.of_nat (length done_)) (Z.of_nat (length done_) + ws))
        :: rest.
Proof.
  unfold skip_step. rewrite search_any, Nat2Z.id.
  destruct (existsb nonfinite _); [|reflexivity].
  replace (length done_) with (length done_ + 0)%nat at 1 by lia.
  rewrite insert_app_r. reflexivity.
Qed.

Lemma skip_loop ts ws (n k : nat) :
  (k <= n)%nat ->
  foldl (skip_step ts ws) (replicate n false) (seqZ 0 (Z.of_nat k)) =
  ((fun i => existsb nonfinite (slice ts i (i + ws))) <$> seqZ 0 (Z.of_nat k))
    ++ replicate (n - k) false.
Proof.
  induction k as [|k IH]; intros Hk.
  - simpl. rewrite Nat.sub_0_r. reflexivity.
  - rewrite Nat2Z.inj_succ, <- Z.add_1_r.
    rewrite seqZ_app by lia.
    change (seqZ (0 + Z.of_nat k) 1) with [0 + Z.of_nat k].
    rewrite Z.add_0_l, foldl_app, fmap_app, IH by lia.
    replace (n - k)%nat with (S (n - S k)) by lia.
    pose proof (skip_step_next ts ws
      ((fun i => existsb nonfinite (slice ts i (i + ws))) <$> seqZ 0 (Z.of_nat k))
      (replicate (n - S k) false)) as Hs.
    rewrite length_fmap, length_seqZ, Nat2Z.id in Hs.
    cbn [foldl replicate fmap list_fmap]. rewrite Hs, <- app_assoc. reflexivity.
Qed.

Lemma find_skip_locations_eq ts pl ws :
  0 <= pl ->
  find_skip_locations ts pl ws =
  Ok ((fun i => existsb nonfinite (slice ts i (i + ws))) <$> seqZ 0 pl).
Proof.
  intros Hpl. unfold find_skip_locations, range.
  destruct (Z.ltb_spec pl 0); [lia|].
  pose proof (skip_loop ts ws (Z.to_nat pl) (Z.to_nat pl) (le_n _)) as H1.
  rewrite Z2Nat.id in H1 by lia.
  rewrite H1, Nat.sub_diag. simpl. rewrite app_nil_r. reflexivity.
Qed.

Lemma existsb_elem_of (f : float -> bool) (l : list float) :
  existsb f l = true <-> exists x, x ∈ l /\ f x = true.
Proof.
  rewrite existsb_exists. split; intros (x & Hx & Hf); exists x; split; auto;
    apply list_elem_of_In; assumption.
Qed.

Lemma slice_window (ts : list float) (i : nat) (ws : Z) x :
  0 <= ws ->
  x ∈ slice ts (Z.of_nat i) (Z.of_nat i + ws) <->
  exists k : nat, Z.of_nat i <= Z.of_nat k < Z.of_nat i + ws /\ ts !! k = Some x.
Proof.
  intros Hws. unfold slice, slice_bound.
  destruct (Z.ltb_spec (Z.of_nat i) 0); [lia|].
  destruct (Z.ltb_spec (Z.of_nat i + ws) 0); [lia|].
  rewrite list_elem_of_lookup. split.
  - intros [j Hj]. apply lookup_take_Some in Hj as [Hj Hlt].
    rewrite lookup_drop in Hj. apply lookup_lt_Some in Hj as Hlen.
    exists (Z.to_nat (Z.min (Z.of_nat i) (Z.of_nat (length ts))) + j)%nat.
    split; [lia | exact Hj].
  - intros (k & Hk & Hx). apply lookup_lt_Some in Hx as Hlen.
    exists (k - i)%nat. apply lookup_take_Some. split.
    + rewrite lookup_drop.
      replace (Z.to_nat (Z.min (Z.of_nat i) (Z.of_nat (length ts))) + (k - i))%nat
        with k by lia.
      exact Hx.
    + lia.
Qed.

(** C7: for a non-negative profile_length, find_skip_locations returns a
    boolean mask of that length in which position i is true exactly when
    the slice ts[i : i + window_size] holds a NaN or an infinity; for a
    non-negative window size these are the elements at the indices k with
    i <= k < i + window_size; for an all-finite series no position is
    marked. *)
Theorem find_skip_locations_spec ts profile_length window_size :
  0 <= profile_length ->
  exists skip_loc,
    find_skip_locations ts profile_length window_size = Ok skip_loc /\
    length skip_loc = Z.to_nat profile_length /\
    (forall i : nat, (i < length skip_loc)%nat ->
       (skip_loc !! i = Some true \/ skip_loc !! i = Some false) /\
       (skip_loc !! i = Some true <->
        exists x, x ∈ slice ts (Z.of_nat i) (Z.of_nat i + window_size) /\
                  (Np.isnan x = true \/ Np.isinf x = true)) /\
       (0 <= window_size ->
        (skip_loc !! i = Some true <->
         exists (k : nat) x,
           Z.of_nat i <= Z.of_nat k < Z.of_nat i + window_size /\
           ts !! k = Some x /\ (Np.isnan x = true \/ Np.isinf x = true)))) /\
    ((forall x, x ∈ ts -> Np.isnan x = false /\ Np.isinf x = false) ->
     forall i : nat, skip_loc !! i <> Some true).
Proof.
  intros Hpl. eexists. split; [apply find_skip_locations_eq; exact Hpl|].
  rewrite length_fmap, length_seqZ.
  assert (Hlook : forall i : nat, (i < Z.to_nat profile_length)%nat ->
             ((fun i => existsb nonfinite (slice ts i (i + window_size)))
                <$> seqZ 0 profile_length) !! i =
             Some (existsb nonfinite
                     (slice ts (Z.of_nat i) (Z.of_nat i + window_size)))).
  { intros i Hi. rewrite list_lookup_fmap.
    rewrite (lookup_seqZ_lt 0 profile_length i) by lia. reflexivity. }
  assert (Hbad : forall segment : list float,
             existsb nonfinite segment = true <->
             exists x, x ∈ segment /\ (Np.isnan x = true \/ Np.isinf x = true)).
  { intros segment. rewrite existsb_elem_of. unfold nonfinite.
    split; intros (x & Hx & Hf); exists x; (split; [exact Hx|]).
    - apply orb_true_iff in Hf as [Hf|Hf]; [right | left]; exact Hf.
    - apply orb_true_iff. destruct Hf as [Hf|Hf]; [right | left]; exact Hf. }
  split; [reflexivity|]. split.
  - intros i Hi. rewrite (Hlook i Hi).
    split; [destruct (existsb nonfinite _); auto|].
    split.
    + rewrite <- Hbad. split; [intros [= ->]; reflexivity | intros ->; reflexivity].
    + intros Hws. split.
      * intros [= He]. apply Hbad in He as (x & Hx & Hf).
        apply slice_window in Hx as (k & Hk & Hkx); [|exact Hws]. eauto.
      * intros (k & x & Hk & Hkx & Hf). f_equal. apply Hbad. exists x.
        split; [|exact Hf]. apply slice_window; eauto.
  - intros Hfin i Hi.
    apply lookup_lt_Some in Hi as Hlen. rewrite length_fmap, length_seqZ in Hlen.
    rewrite (Hlook i Hlen) in Hi. injection Hi as Hi.
    apply Hbad in Hi as (x & Hx & Hf).
    assert (Hts : x ∈ ts).
    { unfold slice in Hx. apply subseteq_take in Hx.
      apply subseteq_drop in Hx. exact Hx. }
    destruct (Hfin x Hts) as [Hn Hi']. destruct Hf; congruence.
Qed.

Lemma find_skip_locations_spec_witness :
  exists skip_loc,
    find_skip_locations [1; nan; 3; 4]%float 3 2 = Ok skip_loc /\
    length skip_loc = 3%nat.
Proof.
  destruct (find_skip_locations_spec [1; nan; 3; 4]%float 3 2 ltac:(lia))
    as (skip_loc & Heq & Hlen & _).
  exists skip_loc. split; [exact Heq | exact Hlen].
Defined.

(** ** Exclusion zone *)

Lemma fill_slice_length a start stop v :
  length (Np.fill_slice a start stop v) = length a.
Proof. unfold Np.fill_slice. apply length_inserts. Qed.

Lemma fill_slice_lookup (a : list float) start stop v (k : nat) :
  0 <= start -> 0 <= stop ->
  (k < length a)%nat ->
  Np.fill_slice a start stop v !! k =
  if decide (start <= Z.of_nat k < stop) then Some v else a !! k.
Proof.
  intros Hs He Hk. unfold Np.fill_slice, slice_bound.
  destruct (Z.ltb_spec start 0); [lia|]. destruct (Z.ltb_spec stop 0); [lia|].
  set (s := Z.min start (Z.of_nat (length a))).
  set (e := Z.min stop (Z.of_nat (length a))).
  destruct (decide (start <= Z.of_nat k < stop)) as [Hin|Hout].
  - rewrite list_lookup_inserts.
    + apply lookup_replicate_2. lia.
    + rewrite length_replicate. lia.
    + exact Hk.
  - destruct (decide (Z.of_nat k < start)).
    + apply list_lookup_inserts_lt. lia.
    + apply list_lookup_inserts_ge. rewrite length_replicate. lia.
Qed.

(** C8: with is_join false and exclusion_zone > 0 (for a non-negative
    profile length data_length - window_size + 1 and index + exclusion_zone
    not negative, so that the end of the zone is not a negative index),
    apply_exclusion_zone sets the entries whose index lies in
    [max(0, index - exclusion_zone),
     min(data_length - window_size + 1, index + exclusion_zone))
    to positive infinity and leaves every other entry and the length
    unchanged; with is_join true or exclusion_zone <= 0 the profile is
    returned unchanged; on a profile of length 10 with exclusion_zone 2,
    window_size 3, data_length 12 and index 5, exactly the indices 3 to 6
    become infinity. *)
Theorem apply_exclusion_zone_spec
    exclusion_zone is_join window_size data_length index (profile : list float) :
  (is_join = true \/ exclusion_zone <= 0 ->
   apply_exclusion_zone exclusion_zone is_join window_size data_length index profile
   = profile) /\
  (is_join = false -> 0 < exclusion_zone ->
   0 <= data_length - window_size + 1 -> 0 <= index + exclusion_zone ->
   length (apply_exclusion_zone exclusion_zone is_join window_size data_length
             index profile) = length profile /\
   forall k : nat, (k < length profile)%nat ->
     apply_exclusion_zone exclusion_zone is_join window_size data_length index profile
       !! k =
     if decide (Z.max 0 (index - exclusion_zone) <= Z.of_nat k
                < Z.min (data_length - window_size + 1) (index + exclusion_zone))
     then Some Np.inf else profile !! k) /\
  (length profile = 10%nat ->
   apply_exclusion_zone 2 false 3 12 5 profile =
   take 3 profile ++ replicate 4 Np.inf ++ drop 7 profile).
Proof.
  split; [|split].
  - intros H. unfold apply_exclusion_zone.
    destruct H as [-> | Hez].
    + rewrite andb_false_r. reflexivity.
    + destruct (Z.gtb_spec exclusion_zone 0); [lia | reflexivity].
  - intros -> Hez Hpl Hidx. unfold apply_exclusion_zone.
    destruct (Z.gtb_spec exclusion_zone 0); [|lia]. simpl.
    split; [apply fill_slice_length|].
    intros k Hk. apply fill_slice_lookup; [lia | lia | exact Hk].
  - intros Hlen.
    do 11 (destruct profile as [|? profile]; try discriminate Hlen).
    reflexivity.
Qed.

(** Outside that domain the end of the zone is a negative index, which the
    slice assignment counts from the end of the profile. *)
Example apply_exclusion_zone_negative_end :
  apply_exclusion_zone 2 false 14 12 5 [1; 2; 3; 4; 5; 6; 7; 8; 9; 10]%float =
  [1; 2; 3; infinity; infinity; infinity; infinity; infinity; infinity; 10]%float.
Proof. reflexivity. Qed.

Lemma apply_exclusion_zone_spec_witness :
  length (apply_exclusion_zone 2 false 3 12 5 [1; 2; 3; 4; 5; 6; 7; 8; 9; 10]%float)
  = 10%nat /\
  apply_exclusion_zone 2 false 3 12 5 [1; 2; 3; 4; 5; 6; 7; 8; 9; 10]%float !! 4%nat
  = Some Np.inf /\
  apply_exclusion_zone 2 false 3 12 5 [1; 2; 3; 4; 5; 6; 7; 8; 9; 10]%float !! 7%nat
  = Some 8%float.
Proof.
  destruct (proj1 (proj2 (apply_exclusion_zone_spec 2 false 3 12 5
                            [1; 2; 3; 4; 5; 6; 7; 8; 9; 10]%float))
              eq_refl ltac:(lia) ltac:(lia) ltac:(lia)) as [Hlen Hk].
  split; [exact Hlen|]. split.
  - exact (Hk 4%nat ltac:(simpl; lia)).
  - exact (Hk 7%nat ltac:(simpl; lia)).
Defined.

(** ** IEEE 754 facts used by the distance profile *)

(** Case analysis on the class and sign of the binary64 value [x]; the
    cases that compute are closed, a finite operand being left to the
    caller only when the operation has to round. *)
Ltac spec_cases x :=
  destruct (Prim2SF x) as [[|]|[|]| |[|] ? ?];
  try discriminate; try reflexivity.

Lemma float_eqb_zero s :
  (s =? 0)%float = true -> exists b, Prim2SF s = S754_zero b.
Proof.
  rewrite FloatAxioms.eqb_spec.
  change (Prim2SF 0) with (S754_zero false).
  destruct (Prim2SF s) as [b|b| |b m e]; unfold SFeqb; simpl;
    try discriminate; eauto; destruct b; discriminate.
Qed.

Lemma mul_zero_l s q :
  (s =? 0)%float = true -> sf_zero_or_nan (Prim2SF (s * q)) = true.
Proof.
  intros [b Hs]%float_eqb_zero. rewrite mul_spec, Hs. spec_cases q.
Qed.

Lemma mul_zero_r s q :
  (q =? 0)%float = true -> sf_zero_or_nan (Prim2SF (s * q)) = true.
Proof.
  intros [b Hq]%float_eqb_zero. rewrite mul_spec, Hq. spec_cases s.
Qed.

Lemma div_zero_or_nan x d :
  sf_zero_or_nan (Prim2SF d) = true -> sf_nonfinite (Prim2SF (x / d)) = true.
Proof.
  rewrite div_spec. spec_cases d; intros _; spec_cases x.
Qed.

Lemma sub_nonfinite w y :
  sf_nonfinite (Prim2SF y) = true -> sf_nonfinite (Prim2SF (w - y)) = true.
Proof.
  rewrite sub_spec. spec_cases y; intros _; spec_cases w.
Qed.

Lemma double_nonfinite y :
  sf_nonfinite (Prim2SF y) = true -> sf_nonfinite (Prim2SF (2 * y)) = true.
Proof.
  rewrite mul_spec.
  change (Prim2SF 2) with (S754_finite false 4503599627370496 (-51)).
  spec_cases y.
Qed.

Lemma sqrt_nonfinite y :
  sf_nonfinite (Prim2SF y) = true -> sf_nonfinite (Prim2SF (sqrt y)) = true.
Proof.
  rewrite sqrt_spec. spec_cases y.
Qed.

Lemma nonfinite_is_finite d :
  sf_nonfinite (Prim2SF d) = true -> is_finite d = false.
Proof.
  unfold is_finite, is_nan, is_infinity.
  rewrite !FloatAxioms.eqb_spec, abs_spec.
  change (Prim2SF infinity) with (S754_infinity false).
  spec_cases d.
Qed.

Lemma zero_std_nonfinite w x s q :
  (s =? 0)%float = true \/ (q =? 0)%float = true ->
  is_finite (sqrt (Np.real (2 * (w - x / (s * q)))))%float = false.
Proof.
  intros Hz. unfold Np.real.
  apply nonfinite_is_finite, sqrt_nonfinite, double_nonfinite, sub_nonfinite,
    div_zero_or_nan.
  destruct Hz; [apply mul_zero_l | apply mul_zero_r]; assumption.
Qed.

(** ** Distance profile *)

Lemma broadcast_same_length f (a b : list float) :
  length a = length b -> Np.broadcast f a b = Ok (zip_with f a b).
Proof.
  intros H. unfold Np.broadcast. rewrite H, Nat.eqb_refl. reflexivity.
Qed.

Section SameLength.

Variables (prod : list float) (ws : Z) (data_mu data_sig : list float).
Variables (query_mu query_sig : float).
Hypothesis Hmu : length data_mu = length prod.
Hypothesis Hsig : length data_sig = length prod.

Lemma distance_profile_arrays :
  distance_profile prod ws data_mu data_sig query_mu query_sig =
  Ok (PrimFloat.sqrt <$> (Np.real <$> ((fun x => 2 * x)%float <$>
        ((fun x => Np.of_int ws - x)%float <$>
           zip_with PrimFloat.div
             (zip_with PrimFloat.sub prod
                ((fun x => x * query_mu)%float <$>
                   ((fun x => Np.of_int ws * x)%float <$> data_mu)))
             ((fun x => x * query_sig)%float <$> data_sig))))).
Proof.
  unfold distance_profile.
  rewrite broadcast_same_length by (rewrite !length_fmap; congruence).
  simpl. rewrite broadcast_same_length; [reflexivity|].
  rewrite length_zip_with, !length_fmap. lia.
Qed.

Lemma distance_profile_returns :
  exists dp, distance_profile prod ws data_mu data_sig query_mu query_sig = Ok dp.
Proof. rewrite distance_profile_arrays. eauto. Qed.

Variable dp : list float.
Hypothesis Hdp :
  distance_profile prod ws data_mu data_sig query_mu query_sig = Ok dp.

Lemma distance_profile_lookup (i : nat) p mu sig :
  prod !! i = Some p -> data_mu !! i = Some mu -> data_sig !! i = Some sig ->
  dp !! i =
  Some (sqrt (Np.real (2 * (Np.of_int ws -
                            (p - Np.of_int ws * mu * query_mu) / (sig * query_sig)))))%float.
Proof.
  intros Hp Hm Hs. rewrite distance_profile_arrays in Hdp.
  injection Hdp as <-.
  rewrite !list_lookup_fmap, !lookup_zip_with, !list_lookup_fmap, Hp, Hm, Hs.
  reflexivity.
Qed.

Lemma distance_profile_length : length dp = length prod.
Proof.
  rewrite distance_profile_arrays in Hdp. injection Hdp as <-.
  rewrite !length_fmap, !length_zip_with, !length_fmap. lia.
Qed.

End SameLength.

(** C2: for arrays of one common length, distance_profile returns an array
    of that length whose entry at every position i is exactly
    sqrt(real(2 * (ws - (prod[i] - ws * data_mu[i] * query_mu)
                          / (data_sig[i] * query_sig)))),
    the operations being those of float64; this holds at every position,
    in particular where data_sig[i] and query_sig are not zero. *)
Theorem distance_profile_pointwise prod ws data_mu data_sig query_mu query_sig :
  length data_mu = length prod -> length data_sig = length prod ->
  exists dp,
    distance_profile prod ws data_mu data_sig query_mu query_sig = Ok dp /\
    length dp = length prod /\
    forall (i : nat) p mu sig,
      prod !! i = Some p -> data_mu !! i = Some mu -> data_sig !! i = Some sig ->
      dp !! i =
      Some (sqrt (Np.real (2 * (Np.of_int ws -
                                (p - Np.of_int ws * mu * query_mu)
                                / (sig * query_sig)))))%float.
Proof.
  intros Hmu Hsig.
  destruct (distance_profile_returns prod ws data_mu data_sig query_mu query_sig
              Hmu Hsig) as [dp Hdp].
  exists dp. split; [exact Hdp|]. split.
  - exact (distance_profile_length _ _ _ _ _ _ Hmu Hsig dp Hdp).
  - exact (distance_profile_lookup _ _ _ _ _ _ Hmu Hsig dp Hdp).
Qed.

Lemma distance_profile_pointwise_witness :
  exists dp,
    distance_profile [14; 20; 26]%float 3 [2; 3; 4]%float
      [1; 2; 0.5]%float
      2%float 1%float = Ok dp /\
    length dp = 3%nat.
Proof.
  destruct (distance_profile_pointwise [14; 20; 26]%float 3 [2; 3; 4]%float
      [1; 2; 0.5]%float
      2%float 1%float eq_refl eq_refl) as (dp & Heq & Hlen & _).
  exists dp. split; [exact Heq | exact Hlen].
Defined.

(** C4: a zero standard deviation does not make distance_profile raise.
    For arrays of one common length the call returns an array of that
    length; at every position i where data_sig[i] is zero (or when
    query_sig is zero) the entry is a NaN or an infinity; and overwriting
    the inputs at position i with any other values, zero or not, still
    returns and leaves the entry at every other position j as it was. *)
Theorem distance_profile_zero_std prod ws data_mu data_sig query_mu query_sig :
  length data_mu = length prod -> length data_sig = length prod ->
  exists dp,
    distance_profile prod ws data_mu data_sig query_mu query_sig = Ok dp /\
    length dp = length prod /\
    (forall (i : nat) sig,
        data_sig !! i = Some sig ->
        (sig =? 0)%float = true \/ (query_sig =? 0)%float = true ->
        exists d, dp !! i = Some d /\ is_finite d = false) /\
    (forall (i : nat) p' mu' sig',
        exists dp',
          distance_profile (<[i:=p']> prod) ws (<[i:=mu']> data_mu)
            (<[i:=sig']> data_sig) query_mu query_sig = Ok dp' /\
          length dp' = length dp /\
          forall j : nat, j <> i -> dp' !! j = dp !! j).
Proof.
  intros Hmu Hsig.
  destruct (distance_profile_returns prod ws data_mu data_sig query_mu query_sig
              Hmu Hsig) as [dp Hdp].
  pose proof (distance_profile_length _ _ _ _ _ _ Hmu Hsig dp Hdp) as Hlen.
  exists dp. split; [exact Hdp|]. split; [exact Hlen|]. split.
  - intros i sig Hs Hz.
    apply lookup_lt_Some in Hs as Hi.
    destruct (lookup_lt_is_Some_2 prod i ltac:(lia)) as [p Hp].
    destruct (lookup_lt_is_Some_2 data_mu i ltac:(lia)) as [mu Hm].
    eexists. split.
    + exact (distance_profile_lookup _ _ _ _ _ _ Hmu Hsig dp Hdp i p mu sig Hp Hm Hs).
    + apply zero_std_nonfinite. exact Hz.
  - intros i p' mu' sig'.
    assert (Hmu' : length (<[i:=mu']> data_mu) = length (<[i:=p']> prod))
      by (rewrite !length_insert; exact Hmu).
    assert (Hsig' : length (<[i:=sig']> data_sig) = length (<[i:=p']> prod))
      by (rewrite !length_insert; exact Hsig).
    destruct (distance_profile_returns _ ws _ _ query_mu query_sig Hmu' Hsig')
      as [dp' Hdp'].
    pose proof (distance_profile_length _ _ _ _ _ _ Hmu' Hsig' dp' Hdp') as Hlen'.
    rewrite length_insert in Hlen'.
    exists dp'. split; [exact Hdp'|]. split; [congruence|].
    intros j Hj.
    destruct (decide (j < length prod)%nat) as [Hlt|Hge].
    + destruct (lookup_lt_is_Some_2 prod j ltac:(lia)) as [p Hp].
      destruct (lookup_lt_is_Some_2 data_mu j ltac:(lia)) as [mu Hm].
      destruct (lookup_lt_is_Some_2 data_sig j ltac:(lia)) as [sig Hs].
      rewrite (distance_profile_lookup _ _ _ _ _ _ Hmu Hsig dp Hdp j p mu sig Hp Hm Hs).
      apply (distance_profile_lookup _ _ _ _ _ _ Hmu' Hsig' dp' Hdp' j p mu sig);
        rewrite list_lookup_insert_ne by congruence; assumption.
    + rewrite (lookup_ge_None_2 dp j) by lia.
      apply lookup_ge_None_2. lia.
Qed.

Lemma distance_profile_zero_std_witness :
  exists dp,
    distance_profile [0; 2; 3]%float 3 [0; 2; 3]%float [0; 1; 2]%float
      0%float 1%float = Ok dp /\
    exists d, dp !! 0%nat = Some d /\ is_finite d = false.
Proof.
  destruct (distance_profile_zero_std [0; 2; 3]%float 3 [0; 2; 3]%float
              [0; 1; 2]%float 0%float 1%float eq_refl eq_refl)
    as (dp & Heq & _ & Hz & _).
  exists dp. split; [exact Heq|].
  apply (Hz 0%nat 0%float eq_refl). left. reflexivity.
Defined.

(** ** Rolling statistics *)

Lemma rolling_window_row (a : list float) (window : Z) (i : nat) :
  0 <= window -> Z.of_nat i + window <= Z.of_nat (length a) ->
  (fun j => Np.item a (Z.of_nat i + j)) <$> range window =
  take (Z.to_nat window) (drop i a).
Proof.
  intros Hw Hi. apply list_eq. intros j. unfold range.
  rewrite list_lookup_fmap.
  destruct (decide (Z.of_nat j < window)) as [Hj|Hj].
  - rewrite (lookup_seqZ_lt 0 window j Hj), lookup_take_lt, lookup_drop by lia.
    simpl. unfold Np.item.
    replace (Z.to_nat (Z.of_nat i + (0 + Z.of_nat j))) with (i + j)%nat by lia.
    destruct (lookup_lt_is_Some_2 a (i + j)%nat ltac:(lia)) as [x Hx].
    rewrite Hx. reflexivity.
  - rewrite lookup_seqZ_ge, lookup_take_ge by lia. reflexivity.
Qed.

Lemma rolling_window_rows (a : list float) (window : Z) :
  0 <= window <= Z.of_nat (length a) ->
  rolling_window a window =
  Ok ((fun i => take (Z.to_nat window) (drop (Z.to_nat i) a))
        <$> range (Z.of_nat (length a) - window + 1)).
Proof.
  intros Hw. unfold rolling_window.
  destruct (Z.ltb_spec (Z.of_nat (length a) - window + 1) 0); [lia|].
  destruct (Z.ltb_spec window 0); [lia|]. simpl. f_equal.
  apply list_eq. intros i. unfold range. rewrite !list_lookup_fmap.
  destruct (seqZ 0 (Z.of_nat (length a) - window + 1) !! i) as [z|] eqn:Hz;
    [|reflexivity].
  apply lookup_seqZ in Hz as [-> Hz].
  cbn [fmap option_fmap option_map]. rewrite Z.add_0_l, Nat2Z.id. f_equal.
  exact (rolling_window_row a window i ltac:(lia) ltac:(lia)).
Qed.




(** * Further properties of core.py *)

(** ** Batch planning: counts, bounds and the worker count *)

Lemma generate_batch_jobs_length pl nj :
  1 <= pl -> 1 <= nj ->
  exists batches,
    generate_batch_jobs pl nj = Ok batches /\
    length batches = (if ceil_div pl nj =? pl then 1%nat else Z.to_nat nj).
Proof.
  intros Hpl Hnj. destruct (Z.eqb_spec (ceil_div pl nj) pl) as [He|Hne].
  - exists [(0, pl)]. split; [|reflexivity].
    apply generate_batch_jobs_whole; [lia | exact He].
  - eexists. split; [apply generate_batch_jobs_split; assumption|].
    rewrite length_fmap. unfold range. apply length_seqZ.
Qed.

Lemma ceil_div_whole pl nj :
  1 <= pl -> 1 <= nj -> ceil_div pl nj = pl -> nj = 1 \/ pl = 1.
Proof.
  intros Hpl Hnj He. pose proof (ceil_div_bounds pl nj ltac:(lia)) as Hb.
  rewrite He in Hb. nia.
Qed.

(** X1: for profile_length >= 1 and n_jobs >= 1 at least one and at most
    n_jobs ranges are yielded; every range starts at 0 or later, ends at
    profile_length or earlier and is no wider than the batch size, and a
    non-empty range is either exactly one batch size wide or ends at
    profile_length.  (An empty trailing range can start beyond
    profile_length, its end being cut back to it.) *)
Theorem generate_batch_jobs_bounds profile_length n_jobs :
  1 <= profile_length -> 1 <= n_jobs ->
  exists batches,
    generate_batch_jobs profile_length n_jobs = Ok batches /\
    (1 <= length batches <= Z.to_nat n_jobs)%nat /\
    forall r, r ∈ batches ->
      0 <= r.1 /\ r.2 <= profile_length /\
      r.2 - r.1 <= ceil_div profile_length n_jobs /\
      (r.1 < r.2 ->
       r.2 - r.1 = ceil_div profile_length n_jobs \/ r.2 = profile_length).
Proof.
  intros Hpl Hnj.
  pose proof (ceil_div_bounds profile_length n_jobs ltac:(lia)) as Hb.
  pose proof (ceil_div_pos profile_length n_jobs Hpl ltac:(lia)) as Hpos.
  destruct (generate_batch_jobs_length profile_length n_jobs Hpl Hnj)
    as (batches & Heq & Hlen).
  exists batches. split; [exact Heq|]. split.
  { rewrite Hlen. destruct (_ =? _); lia. }
  intros r Hr. destruct (Z.eq_dec (ceil_div profile_length n_jobs) profile_length)
    as [He|Hne].
  - rewrite (generate_batch_jobs_whole profile_length n_jobs ltac:(lia) He) in Heq.
    injection Heq as <-. apply list_elem_of_singleton in Hr as ->. simpl. lia.
  - rewrite (generate_batch_jobs_split _ _ Hnj Hne) in Heq. injection Heq as <-.
    apply list_elem_of_lookup in Hr as [k Hk].
    apply lookup_batch in Hk as (Hi & Hr1 & Hr2). rewrite Hr1, Hr2. nia.
Qed.

Lemma generate_batch_jobs_bounds_witness :
  exists batches,
    generate_batch_jobs 10 3 = Ok batches /\ (1 <= length batches <= 3)%nat.
Proof.
  destruct (generate_batch_jobs_bounds 10 3 ltac:(lia) ltac:(lia))
    as (batches & Heq & Hlen & _).
  exists batches. split; [exact Heq | exact Hlen].
Defined.

(** X2: when n_jobs * (n_jobs - 1) <= profile_length, exactly n_jobs
    ranges are yielded and none of them is empty. *)
Theorem generate_batch_jobs_no_empty profile_length n_jobs :
  1 <= profile_length -> 1 <= n_jobs ->
  n_jobs * (n_jobs - 1) <= profile_length ->
  exists batches,
    generate_batch_jobs profile_length n_jobs = Ok batches /\
    length batches = Z.to_nat n_jobs /\
    forall r, r ∈ batches -> r.1 < r.2.
Proof.
  intros Hpl Hnj Hsq.
  pose proof (ceil_div_bounds profile_length n_jobs ltac:(lia)) as Hb.
  pose proof (ceil_div_pos profile_length n_jobs Hpl ltac:(lia)) as Hpos.
  destruct (generate_batch_jobs_length profile_length n_jobs Hpl Hnj)
    as (batches & Heq & Hlen).
  exists batches. split; [exact Heq|].
  destruct (Z.eqb_spec (ceil_div profile_length n_jobs) profile_length)
    as [He|Hne].
  - assert (n_jobs = 1) as ->.
    { destruct (ceil_div_whole _ _ Hpl Hnj He); [assumption | nia]. }
    split; [exact Hlen|]. intros r Hr.
    rewrite (generate_batch_jobs_whole profile_length 1 ltac:(lia) He) in Heq.
    injection Heq as <-. apply list_elem_of_singleton in Hr as ->. simpl. lia.
  - split; [exact Hlen|]. intros r Hr.
    rewrite (generate_batch_jobs_split _ _ Hnj Hne) in Heq. injection Heq as <-.
    apply list_elem_of_lookup in Hr as [k Hk].
    apply lookup_batch in Hk as (Hi & Hr1 & Hr2). rewrite Hr1, Hr2.
    set (bs := ceil_div profile_length n_jobs) in *.
    assert (Z.of_nat k * bs < profile_length) by nia.
    nia.
Qed.

Lemma generate_batch_jobs_no_empty_witness :
  exists batches,
    generate_batch_jobs 12 4 = Ok batches /\ length batches = 4%nat.
Proof.
  destruct (generate_batch_jobs_no_empty 12 4 ltac:(lia) ltac:(lia) ltac:(lia))
    as (batches & Heq & Hlen & _).
  exists batches. split; [exact Heq | exact Hlen].
Defined.

(** X3: a negative n_jobs is not rejected: for a non-zero profile_length
    the generator finishes without yielding any range; n_jobs = 0 is the
    only value for which it raises (ZeroDivisionError). *)
Theorem generate_batch_jobs_negative_jobs profile_length n_jobs :
  (n_jobs < 0 -> profile_length <> 0 ->
   generate_batch_jobs profile_length n_jobs = Ok []) /\
  (raises (generate_batch_jobs profile_length n_jobs) <-> n_jobs = 0).
Proof.
  split.
  - intros Hnj Hpl. unfold generate_batch_jobs.
    destruct (Z.eqb_spec n_jobs 0); [lia|].
    destruct (Z.eqb_spec (ceil_div profile_length n_jobs) profile_length) as [He|Hne].
    + exfalso. unfold ceil_div in He.
      pose proof (Z.div_mod (- profile_length) n_jobs ltac:(lia)) as Hdm.
      pose proof (Z.mod_neg_bound (- profile_length) n_jobs Hnj) as Hm.
      nia.
    + unfold range. rewrite seqZ_nil by lia. reflexivity.
  - unfold generate_batch_jobs. destruct (Z.eqb_spec n_jobs 0) as [->|Hne].
    + simpl. tauto.
    + destruct (_ =? _); simpl; split; [tauto | contradiction | tauto | contradiction].
Qed.

Lemma generate_batch_jobs_negative_jobs_witness :
  generate_batch_jobs 9 (-2) = Ok [].
Proof.
  apply (proj1 (generate_batch_jobs_negative_jobs 9 (-2))); lia.
Defined.

(** X4: on a machine with at least one CPU, valid_n_jobs returns a count
    between 1 and the CPU count: the request itself when it is in that
    range, the CPU count otherwise; its result is a fixed point; and it
    logs one warning carrying the returned count on every call, clamped or
    not. *)
Theorem valid_n_jobs_clamps cpu_count n_jobs :
  1 <= cpu_count ->
  1 <= (valid_n_jobs cpu_count n_jobs).1 <= cpu_count /\
  (1 <= n_jobs <= cpu_count -> (valid_n_jobs cpu_count n_jobs).1 = n_jobs) /\
  (n_jobs < 1 \/ cpu_count < n_jobs -> (valid_n_jobs cpu_count n_jobs).1 = cpu_count) /\
  (valid_n_jobs cpu_count (valid_n_jobs cpu_count n_jobs).1).1 =
    (valid_n_jobs cpu_count n_jobs).1 /\
  (valid_n_jobs cpu_count n_jobs).2 =
    [LogWarning "Multiprocessing with {} cpus." (valid_n_jobs cpu_count n_jobs).1].
Proof.
  intros Hc. unfold valid_n_jobs. simpl.
  destruct (Z.ltb_spec n_jobs 1) as [H1|H1].
  - destruct (Z.gtb_spec cpu_count cpu_count) as [H2|H2]; [lia|].
    destruct (Z.ltb_spec cpu_count 1); [lia|].
    destruct (Z.gtb_spec cpu_count cpu_count); [lia|].
    repeat split; try lia; reflexivity.
  - destruct (Z.gtb_spec n_jobs cpu_count) as [H2|H2].
    + destruct (Z.ltb_spec cpu_count 1); [lia|].
      destruct (Z.gtb_spec cpu_count cpu_count); [lia|].
      repeat split; try lia; reflexivity.
    + destruct (Z.ltb_spec n_jobs 1); [lia|].
      destruct (Z.gtb_spec n_jobs cpu_count); [lia|].
      repeat split; try lia; reflexivity.
Qed.

Lemma valid_n_jobs_clamps_witness :
  1 <= (valid_n_jobs 8 (-1)).1 <= 8.
Proof.
  apply (proj1 (valid_n_jobs_clamps 8 (-1) ltac:(lia))).
Defined.

(** X5: whatever is requested, the count valid_n_jobs returns is safe for
    generate_batch_jobs: on a machine with at least one CPU and for
    profile_length >= 1 the generator does not raise and yields at least
    one and at most cpu_count ranges. *)
Theorem generate_batch_jobs_after_valid_n_jobs cpu_count requested profile_length :
  1 <= cpu_count -> 1 <= profile_length ->
  exists batches,
    generate_batch_jobs profile_length (valid_n_jobs cpu_count requested).1
      = Ok batches /\
    (1 <= length batches <= Z.to_nat cpu_count)%nat.
Proof.
  intros Hc Hpl.
  assert (Hn : 1 <= (valid_n_jobs cpu_count requested).1 <= cpu_count).
  { unfold valid_n_jobs. simpl.
    destruct (Z.ltb_spec requested 1);
      [destruct (Z.gtb_spec cpu_count cpu_count)
      |destruct (Z.gtb_spec requested cpu_count)]; lia. }
  destruct (generate_batch_jobs_length profile_length _ Hpl (proj1 Hn))
    as (batches & Heq & Hlen).
  exists batches. split; [exact Heq|]. rewrite Hlen.
  destruct (_ =? _); lia.
Qed.

Lemma generate_batch_jobs_after_valid_n_jobs_witness :
  exists batches,
    generate_batch_jobs 100 (valid_n_jobs 4 0).1 = Ok batches /\
    (1 <= length batches <= 4)%nat.
Proof.
  apply (generate_batch_jobs_after_valid_n_jobs 4 0 100); lia.
Defined.

(** ** Sanitisation and skip locations *)

Lemma is_finite_nonfinite x : is_finite x = negb (nonfinite x).
Proof.
  unfold is_finite, nonfinite, Np.isinf, Np.isnan.
  destruct (is_nan x), (is_infinity x); reflexivity.
Qed.

Lemma clean_buffer_map ts :
  clean_buffer ts = (fun x => if nonfinite x then 0%float else x) <$> ts.
Proof.
  unfold clean_buffer, mask_fill.
  induction ts as [|x ts IH]; csimpl; [reflexivity|].
  f_equal. exact IH.
Qed.

Lemma clean_buffer_finite ts y : y ∈ clean_buffer ts -> is_finite y = true.
Proof.
  rewrite clean_buffer_map. intros (x & -> & _)%list_elem_of_fmap.
  destruct (nonfinite x) eqn:Hx; [reflexivity|].
  rewrite is_finite_nonfinite, Hx. reflexivity.
Qed.

Lemma clean_buffer_clean ts :
  (forall x, x ∈ ts -> is_finite x = true) -> clean_buffer ts = ts.
Proof.
  intros Hfin. rewrite clean_buffer_map.
  induction ts as [|x ts IH]; csimpl; [reflexivity|].
  pose proof (Hfin x ltac:(left)) as Hx.
  rewrite is_finite_nonfinite in Hx. apply negb_true_iff in Hx. rewrite Hx.
  f_equal. apply IH. intros y Hy. apply Hfin. right. exact Hy.
Qed.

Lemma floats_of_floats xs : floats_of (PyFloat <$> xs) = Ok xs.
Proof.
  induction xs as [|x xs IH]; csimpl; [reflexivity|]. rewrite IH. reflexivity.
Qed.

Lemma floats_of_inv data xs : floats_of data = Ok xs -> data = PyFloat <$> xs.
Proof.
  revert xs. induction data as [|o data IH]; intros xs; simpl.
  - intros [= <-]. reflexivity.
  - destruct o; try discriminate.
    destruct (floats_of data) as [ys|] eqn:Hys; [|discriminate].
    simpl. intros [= <-]. csimpl. f_equal. apply IH. reflexivity.
Qed.

Lemma clean_nan_inf_array shape xs :
  clean_nan_inf (PyArray shape (PyFloat <$> xs)) =
  Ok (PyArray shape (PyFloat <$> clean_buffer xs)).
Proof.
  unfold clean_nan_inf. simpl. rewrite floats_of_floats. reflexivity.
Qed.

(** X6: on a float64 array of any shape clean_nan_inf returns an array of
    the same shape and size in which every entry is finite: a NaN or an
    infinity has become 0 and every finite entry is kept. *)
Theorem clean_nan_inf_finite shape xs :
  exists ys,
    clean_nan_inf (PyArray shape (PyFloat <$> xs)) =
      Ok (PyArray shape (PyFloat <$> ys)) /\
    length ys = length xs /\
    (forall y, y ∈ ys -> is_finite y = true) /\
    (forall (i : nat) x, xs !! i = Some x ->
       ys !! i = Some (if Np.isinf x || Np.isnan x then 0%float else x)).
Proof.
  exists (clean_buffer xs). split; [apply clean_nan_inf_array|].
  split; [rewrite clean_buffer_map; apply length_fmap|].
  split; [apply clean_buffer_finite|].
  intros i x Hx. rewrite clean_buffer_map, list_lookup_fmap, Hx. reflexivity.
Qed.

(** X7: clean_nan_inf is idempotent on every input it accepts, and on an
    array whose entries are all finite it returns the array as it is. *)
Theorem clean_nan_inf_idempotent :
  (forall ts cleaned,
      clean_nan_inf ts = Ok cleaned -> clean_nan_inf cleaned = Ok cleaned) /\
  (forall shape xs,
      (forall x, x ∈ xs -> is_finite x = true) ->
      clean_nan_inf (PyArray shape (PyFloat <$> xs)) =
      Ok (PyArray shape (PyFloat <$> xs))).
Proof.
  split.
  - intros ts cleaned. unfold clean_nan_inf at 1.
    destruct (to_np_array ts) as [a|]; [|discriminate]. simpl.
    destruct a as [| | | |shape data]; try discriminate.
    destruct (floats_of data) as [xs|]; [|discriminate]. simpl.
    intros [= <-]. rewrite clean_nan_inf_array. do 3 f_equal.
    apply clean_buffer_clean, clean_buffer_finite.
  - intros shape xs Hfin. rewrite clean_nan_inf_array.
    rewrite clean_buffer_clean by exact Hfin. reflexivity.
Qed.

Lemma clean_nan_inf_idempotent_witness :
  clean_nan_inf (PyArray [3%nat] [PyFloat 1; PyFloat 0; PyFloat 2]) =
  Ok (PyArray [3%nat] [PyFloat 1; PyFloat 0; PyFloat 2]).
Proof.
  apply (proj1 clean_nan_inf_idempotent
           (PyList [PyFloat 1; PyFloat nan; PyFloat 2])).
  reflexivity.
Defined.

Lemma shape_of_floats xs :
  forallb (fun y => bool_decide (shape_of y = Some [])) (PyFloat <$> xs) = true.
Proof. induction xs as [|x xs IH]; csimpl; [reflexivity | exact IH]. Qed.

Lemma flat_floats xs : concat (map flat (PyFloat <$> xs)) = PyFloat <$> xs.
Proof. induction xs as [|x xs IH]; csimpl; [reflexivity|]. f_equal. exact IH. Qed.

Lemma to_np_array_float_list xs :
  to_np_array (PyList (PyFloat <$> xs)) =
    Ok (PyArray [length xs] (PyFloat <$> xs)) /\
  to_np_array (PyTuple (PyFloat <$> xs)) =
    Ok (PyArray [length xs] (PyFloat <$> xs)).
Proof.
  unfold to_np_array, np_array. simpl.
  destruct xs as [|x xs]; [split; reflexivity|].
  csimpl. rewrite shape_of_floats, flat_floats, length_fmap. split; reflexivity.
Qed.

(** X8: clean_nan_inf accepts a list or tuple of floats and returns a new
    one-dimensional array of the same length holding the cleaned values;
    a value that is not a list, tuple or array is refused with the
    ValueError of to_np_array, and an array holding a non-number with a
    TypeError. *)
Theorem clean_nan_inf_inputs :
  (forall xs,
      clean_nan_inf (PyList (PyFloat <$> xs)) =
        Ok (PyArray [length xs] (PyFloat <$> clean_buffer xs)) /\
      clean_nan_inf (PyTuple (PyFloat <$> xs)) =
        Ok (PyArray [length xs] (PyFloat <$> clean_buffer xs))) /\
  (forall ts, is_array_like ts = false ->
      clean_nan_inf ts = Raise (ValueError "Unable to convert to np.ndarray!")) /\
  (forall shape data,
      (forall xs, data <> PyFloat <$> xs) ->
      clean_nan_inf (PyArray shape data) =
      Raise (TypeError "ufunc 'isinf' not supported for the input types")).
Proof.
  split; [|split].
  - intros xs. unfold clean_nan_inf.
    destruct (to_np_array_float_list xs) as [-> ->]. simpl.
    rewrite floats_of_floats. split; reflexivity.
  - intros ts Hts. unfold clean_nan_inf, to_np_array.
    destruct ts; try discriminate; reflexivity.
  - intros shape data Hdata. unfold clean_nan_inf. simpl.
    destruct (floats_of data) as [xs|e] eqn:Hxs.
    + exfalso. apply (Hdata xs). apply floats_of_inv. exact Hxs.
    + simpl. f_equal. clear Hdata. revert e Hxs.
      induction data as [|o data IH]; intros e; simpl; [discriminate|].
      destruct o; try (intros [= <-]; reflexivity).
      destruct (floats_of data) as [ys|e'] eqn:Hys; [discriminate|].
      simpl. intros [= <-]. apply (IH e'). reflexivity.
Qed.

Lemma clean_nan_inf_inputs_witness :
  clean_nan_inf PyNone = Raise (ValueError "Unable to convert to np.ndarray!").
Proof.
  apply (proj1 (proj2 clean_nan_inf_inputs) PyNone). reflexivity.
Defined.

Lemma existsb_nonfinite_false (segment : list float) :
  (forall x, x ∈ segment -> is_finite x = true) ->
  existsb nonfinite segment = false.
Proof.
  intros Hfin. apply not_true_iff_false. intros He.
  apply existsb_elem_of in He as (x & Hx & Hf).
  pose proof (Hfin x Hx) as Hx'. rewrite is_finite_nonfinite, Hf in Hx'.
  discriminate.
Qed.

Lemma slice_subseteq {A} (l : list A) start stop x :
  x ∈ slice l start stop -> x ∈ l.
Proof.
  unfold slice. intros Hx. apply subseteq_take in Hx.
  apply subseteq_drop in Hx. exact Hx.
Qed.

(** X9: after clean_nan_inf no location is skipped: on the cleaned buffer
    find_skip_locations returns the all-false mask, for every
    non-negative profile_length and every window_size. *)
Theorem find_skip_locations_after_clean ts profile_length window_size :
  0 <= profile_length ->
  find_skip_locations (clean_buffer ts) profile_length window_size =
  Ok (replicate (Z.to_nat profile_length) false).
Proof.
  intros Hpl. rewrite find_skip_locations_eq by exact Hpl. f_equal.
  apply list_eq. intros i. rewrite list_lookup_fmap.
  destruct (decide (Z.of_nat i < profile_length)) as [Hi|Hi].
  - rewrite (lookup_seqZ_lt 0 _ i Hi), lookup_replicate_2 by lia. simpl.
    f_equal. apply existsb_nonfinite_false. intros x Hx.
    apply (clean_buffer_finite ts). eapply slice_subseteq. exact Hx.
  - rewrite lookup_seqZ_ge by lia. symmetry.
    apply lookup_replicate_None. lia.
Qed.

Lemma find_skip_locations_after_clean_witness :
  find_skip_locations (clean_buffer [1; nan; infinity; 4]%float) 3 2 =
  Ok [false; false; false].
Proof.
  apply (find_skip_locations_after_clean [1; nan; infinity; 4]%float 3 2). lia.
Defined.

(** X10: when the series has a single non-finite entry, at index k, and
    the window size is not negative, position i of the mask is true
    exactly when the window starting at i covers k, that is when
    i <= k < i + window_size; with a negative profile_length the call
    raises instead. *)
Theorem find_skip_locations_band ts profile_length window_size (k : nat) :
  0 <= profile_length -> 0 <= window_size ->
  (forall (j : nat) x, ts !! j = Some x -> (is_finite x = false <-> j = k)) ->
  (k < length ts)%nat ->
  exists skip_loc,
    find_skip_locations ts profile_length window_size = Ok skip_loc /\
    (forall i : nat, Z.of_nat i < profile_length ->
       skip_loc !! i =
       Some (bool_decide (Z.of_nat i <= Z.of_nat k < Z.of_nat i + window_size))) /\
    (forall negative, negative < 0 ->
       raises (find_skip_locations ts negative window_size)).
Proof.
  intros Hpl Hws Honly Hk. eexists. split; [apply find_skip_locations_eq; exact Hpl|].
  split.
  - intros i Hi. rewrite list_lookup_fmap, (lookup_seqZ_lt 0 _ i Hi). simpl.
    f_equal. rewrite Z.add_0_l.
    destruct (lookup_lt_is_Some_2 ts k Hk) as [xk Hxk].
    assert (Hbad : nonfinite xk = true).
    { pose proof (proj2 (Honly k xk Hxk) eq_refl) as Hf.
      rewrite is_finite_nonfinite in Hf. apply negb_false_iff in Hf. exact Hf. }
    case_bool_decide as Hin.
    + apply existsb_elem_of. exists xk. split; [|exact Hbad].
      apply slice_window; [exact Hws|]. exists k. split; [lia | exact Hxk].
    + apply not_true_iff_false. intros He.
      apply existsb_elem_of in He as (x & Hx & Hf).
      apply slice_window in Hx as (j & Hj & Hjx); [|exact Hws].
      assert (j = k) as ->.
      { apply (Honly j x Hjx). rewrite is_finite_nonfinite, Hf. reflexivity. }
      lia.
  - intros negative Hneg. unfold find_skip_locations.
    destruct (Z.ltb_spec negative 0); [exact I | lia].
Qed.

Lemma find_skip_locations_band_witness :
  exists skip_loc,
    find_skip_locations [1; 2; nan; 4; 5]%float 3 2 = Ok skip_loc /\
    skip_loc !! 1%nat = Some true /\ skip_loc !! 0%nat = Some false.
Proof.
  assert (Honly : forall (j : nat) x,
             [1; 2; nan; 4; 5]%float !! j = Some x ->
             (is_finite x = false <-> j = 2%nat)).
  { intros [|[|[|[|[|j]]]]] x; simpl; intros [= <-];
      split; try discriminate; try reflexivity; intros H; vm_compute in H;
      discriminate. }
  destruct (find_skip_locations_band [1; 2; nan; 4; 5]%float 3 2 2
              ltac:(lia) ltac:(lia) Honly ltac:(simpl; lia))
    as (skip_loc & Heq & Hband & _).
  exists skip_loc. split; [exact Heq|]. split.
  - exact (Hband 1%nat ltac:(lia)).
  - exact (Hband 0%nat ltac:(lia)).
Defined.

(** ** Exclusion zone: what it never does *)

Lemma fill_slice_lookup_bounds (a : list float) start stop v (k : nat) :
  (k < length a)%nat ->
  Np.fill_slice a start stop v !! k =
  if decide (slice_bound (Z.of_nat (length a)) start <= Z.of_nat k
             < slice_bound (Z.of_nat (length a)) stop)
  then Some v else a !! k.
Proof.
  intros Hk. unfold Np.fill_slice.
  set (s := slice_bound (Z.of_nat (length a)) start).
  set (e := slice_bound (Z.of_nat (length a)) stop).
  assert (Hs : 0 <= s).
  { unfold s, slice_bound. destruct (Z.ltb_spec start 0); lia. }
  destruct (decide (s <= Z.of_nat k < e)) as [Hin|Hout].
  - rewrite list_lookup_inserts.
    + apply lookup_replicate_2. lia.
    + rewrite length_replicate. lia.
    + exact Hk.
  - destruct (decide (Z.of_nat k < s)).
    + apply list_lookup_inserts_lt. lia.
    + apply list_lookup_inserts_ge. rewrite length_replicate. lia.
Qed.

Lemma apply_exclusion_zone_length ez j ws n idx (p : list float) :
  length (apply_exclusion_zone ez j ws n idx p) = length p.
Proof.
  unfold apply_exclusion_zone.
  destruct ((ez >? 0) && negb j); [apply fill_slice_length | reflexivity].
Qed.

Lemma apply_exclusion_zone_mask ez j ws n idx (len : nat) :
  exists masked : nat -> bool,
    forall p : list float, length p = len ->
      forall k : nat,
        apply_exclusion_zone ez j ws n idx p !! k =
        if masked k then Some Np.inf else p !! k.
Proof.
  unfold apply_exclusion_zone. destruct ((ez >? 0) && negb j).
  - exists (fun k =>
              bool_decide (k < len)%nat &&
              bool_decide
                (slice_bound (Z.of_nat len) (Z.max 0 (idx - ez)) <= Z.of_nat k
                 < slice_bound (Z.of_nat len) (Z.min (n - ws + 1) (idx + ez)))).
    intros p <- k. case_bool_decide as Hk; simpl.
    + rewrite fill_slice_lookup_bounds by exact Hk.
      case_bool_decide; case_decide; try reflexivity; contradiction.
    + rewrite !lookup_ge_None_2; [reflexivity | lia |].
      rewrite fill_slice_length. lia.
  - exists (fun _ => false). reflexivity.
Qed.

(** X11: for all arguments, valid or not, apply_exclusion_zone keeps the
    length of the profile and only ever writes positive infinity: every
    entry of the result is either infinity or the entry the profile had
    there. *)
Theorem apply_exclusion_zone_only_masks
    exclusion_zone is_join window_size data_length index (profile : list float) :
  length (apply_exclusion_zone exclusion_zone is_join window_size data_length
            index profile) = length profile /\
  forall (k : nat) x, profile !! k = Some x ->
    apply_exclusion_zone exclusion_zone is_join window_size data_length index
      profile !! k = Some Np.inf \/
    apply_exclusion_zone exclusion_zone is_join window_size data_length index
      profile !! k = Some x.
Proof.
  split; [apply apply_exclusion_zone_length|].
  intros k x Hx.
  destruct (apply_exclusion_zone_mask exclusion_zone is_join window_size
              data_length index (length profile)) as [masked Hm].
  rewrite (Hm profile eq_refl k).
  destruct (masked k); [left; reflexivity | right; exact Hx].
Qed.

Lemma apply_exclusion_zone_only_masks_witness :
  apply_exclusion_zone 2 false 3 12 5 [1; 2; 3; 4; 5; 6; 7; 8; 9; 10]%float
    !! 8%nat = Some Np.inf \/
  apply_exclusion_zone 2 false 3 12 5 [1; 2; 3; 4; 5; 6; 7; 8; 9; 10]%float
    !! 8%nat = Some 9%float.
Proof.
  apply (proj2 (apply_exclusion_zone_only_masks 2 false 3 12 5
                  [1; 2; 3; 4; 5; 6; 7; 8; 9; 10]%float) 8%nat 9%float).
  reflexivity.
Defined.

(** X12: applying the same exclusion zone twice is the same as applying it
    once, and two exclusion zones, around different indices or of
    different radii, can be applied in either order. *)
Theorem apply_exclusion_zone_idempotent_commutes
    ez1 j1 ws1 n1 idx1 ez2 j2 ws2 n2 idx2 (profile : list float) :
  apply_exclusion_zone ez1 j1 ws1 n1 idx1
    (apply_exclusion_zone ez1 j1 ws1 n1 idx1 profile) =
  apply_exclusion_zone ez1 j1 ws1 n1 idx1 profile /\
  apply_exclusion_zone ez1 j1 ws1 n1 idx1
    (apply_exclusion_zone ez2 j2 ws2 n2 idx2 profile) =
  apply_exclusion_zone ez2 j2 ws2 n2 idx2
    (apply_exclusion_zone ez1 j1 ws1 n1 idx1 profile).
Proof.
  destruct (apply_exclusion_zone_mask ez1 j1 ws1 n1 idx1 (length profile))
    as [m1 H1].
  destruct (apply_exclusion_zone_mask ez2 j2 ws2 n2 idx2 (length profile))
    as [m2 H2].
  split; apply list_eq; intros k.
  - rewrite (H1 _ (apply_exclusion_zone_length _ _ _ _ _ _) k).
    rewrite (H1 profile eq_refl k). destruct (m1 k); reflexivity.
  - rewrite (H1 _ (apply_exclusion_zone_length _ _ _ _ _ _) k).
    rewrite (H2 _ (apply_exclusion_zone_length _ _ _ _ _ _) k).
    rewrite (H1 profile eq_refl k), (H2 profile eq_refl k).
    destruct (m1 k), (m2 k); reflexivity.
Qed.

(** ** Distance profile and rolling statistics: sign and shape *)

Lemma round_not_negative mx ex lx :
  SFltb (binary_round_aux prec emax false mx ex lx) (S754_zero false) = false.
Proof.
  unfold binary_round_aux.
  destruct (shr_fexp prec emax mx ex lx) as [mrs' e'].
  destruct (shr_fexp prec emax _ e' loc_Exact) as [mrs'' e''].
  destruct (shr_m mrs''); [reflexivity | | reflexivity].
  destruct (Z.leb e'' (emax - prec)); reflexivity.
Qed.

Lemma sqrt_not_negative x : (sqrt x <? 0)%float = false.
Proof.
  rewrite ltb_spec, sqrt_spec. change (Prim2SF 0) with (S754_zero false).
  unfold SF64sqrt, SFsqrt.
  destruct (Prim2SF x) as [[|]|[|]| |[|] m e]; try reflexivity.
  destruct (SFsqrt_core_binary prec emax (Z.pos m) e) as [[mz ez] lz].
  apply round_not_negative.
Qed.

Lemma distance_profile_sqrt prod ws data_mu data_sig query_mu query_sig dp :
  distance_profile prod ws data_mu data_sig query_mu query_sig = Ok dp ->
  exists squared, dp = PrimFloat.sqrt <$> squared.
Proof.
  unfold distance_profile.
  destruct (Np.broadcast PrimFloat.sub _ _) as [num|]; [|discriminate]. simpl.
  destruct (Np.broadcast PrimFloat.div _ _) as [quot|]; [|discriminate]. simpl.
  intros [= <-]. eauto.
Qed.

(** X13: whenever distance_profile returns, with equal lengths or through
    broadcasting, no entry of the result is negative: each one is a NaN or
    compares greater than or equal to zero. *)
Theorem distance_profile_not_negative
    prod ws data_mu data_sig query_mu query_sig dp :
  distance_profile prod ws data_mu data_sig query_mu query_sig = Ok dp ->
  forall d, d ∈ dp -> (d <? 0)%float = false.
Proof.
  intros Hdp d Hd.
  destruct (distance_profile_sqrt _ _ _ _ _ _ _ Hdp) as [squared ->].
  apply list_elem_of_fmap in Hd as (y & -> & _). apply sqrt_not_negative.
Qed.

Lemma distance_profile_not_negative_witness :
  exists dp,
    distance_profile [1; 2; 3]%float 3 [1; 2; 3]%float [0; 1; 2]%float
      1%float 1%float = Ok dp /\
    forall d, d ∈ dp -> (d <? 0)%float = false.
Proof.
  eexists. split; [vm_compute; reflexivity|].
  apply (distance_profile_not_negative [1; 2; 3]%float 3 [1; 2; 3]%float
           [0; 1; 2]%float 1%float 1%float).
  vm_compute. reflexivity.
Defined.

Lemma broadcast_mismatch f (a b : list float) :
  length a <> length b -> length a <> 1%nat -> length b <> 1%nat ->
  raises (Np.broadcast f a b).
Proof.
  intros Hab Ha Hb. unfold Np.broadcast.
  destruct (Nat.eqb_spec (length a) (length b)); [contradiction|].
  destruct (Nat.eqb_spec (length a) 1); [contradiction|].
  destruct (Nat.eqb_spec (length b) 1); [contradiction|]. exact I.
Qed.

Lemma broadcast_length f (a b c : list float) :
  Np.broadcast f a b = Ok c ->
  length a <> 1%nat -> length c = length a.
Proof.
  unfold Np.broadcast. intros H Ha.
  destruct (Nat.eqb_spec (length a) (length b)) as [Hab|Hab].
  - injection H as <-. rewrite length_zip_with. lia.
  - destruct (Nat.eqb_spec (length a) 1); [contradiction|].
    destruct (Nat.eqb_spec (length b) 1); [|discriminate].
    injection H as <-. apply length_fmap.
Qed.

Lemma broadcast_length_r f (a b c : list float) :
  Np.broadcast f a b = Ok c ->
  length b <> 1%nat -> length c = length b.
Proof.
  unfold Np.broadcast. intros H Hb.
  destruct (Nat.eqb_spec (length a) (length b)) as [Hab|Hab].
  - injection H as <-. rewrite length_zip_with. lia.
  - destruct (Nat.eqb_spec (length a) 1).
    + injection H as <-. apply length_fmap.
    + destruct (Nat.eqb_spec (length b) 1); [contradiction | discriminate].
Qed.

(** X14: statistics arrays that do not fit make distance_profile raise
    instead of returning a truncated profile: it raises whenever two of
    prod, data_mu and data_sig have different lengths, neither of them
    being 1. *)
Theorem distance_profile_mismatch prod ws data_mu data_sig query_mu query_sig :
  (length prod <> length data_mu /\
   length prod <> 1%nat /\ length data_mu <> 1%nat) \/
  (length prod <> length data_sig /\
   length prod <> 1%nat /\ length data_sig <> 1%nat) \/
  (length data_mu <> length data_sig /\
   length data_mu <> 1%nat /\ length data_sig <> 1%nat) ->
  raises (distance_profile prod ws data_mu data_sig query_mu query_sig).
Proof.
  intros H. unfold distance_profile.
  destruct (Np.broadcast PrimFloat.sub prod _) as [num|e] eqn:Hnum; [|exact I].
  simpl.
  assert (Hraise : raises (Np.broadcast PrimFloat.div num
                             ((fun x => x * query_sig)%float <$> data_sig))).
  { destruct H as [(Hne & Hp & Hm) | [(Hne & Hp & Hs) | (Hne & Hm & Hs)]].
    - exfalso. pose proof (broadcast_mismatch PrimFloat.sub prod
        ((fun x => x * query_mu)%float <$>
           ((fun x => Np.of_int ws * x)%float <$> data_mu))) as Hr.
      rewrite !length_fmap, Hnum in Hr. exact (Hr Hne Hp Hm).
    - apply broadcast_length in Hnum; [|exact Hp].
      apply broadcast_mismatch; rewrite ?length_fmap; congruence.
    - apply broadcast_length_r in Hnum; [|rewrite !length_fmap; exact Hm].
      rewrite !length_fmap in Hnum.
      apply broadcast_mismatch; rewrite ?length_fmap; congruence. }
  destruct (Np.broadcast PrimFloat.div num _); [contradiction | exact I].
Qed.

Lemma distance_profile_mismatch_witness :
  raises (distance_profile [1; 2; 3]%float 3 [1; 2]%float [1; 1; 1]%float
            1%float 1%float).
Proof.
  apply (distance_profile_mismatch [1; 2; 3]%float 3 [1; 2]%float
           [1; 1; 1]%float 1%float 1%float).
  left. simpl. repeat split; lia.
Defined.

Lemma rolling_window_raises a window :
  raises (rolling_window a window) <->
  window < 0 \/ Z.of_nat (length a) + 1 < window.
Proof.
  unfold rolling_window.
  destruct (Z.ltb_spec (Z.of_nat (length a) - window + 1) 0);
    destruct (Z.ltb_spec window 0); simpl; split; try tauto; lia.
Qed.

Lemma rolling_window_edge a :
  rolling_window a (Z.of_nat (length a) + 1) = Ok [].
Proof.
  unfold rolling_window.
  replace (Z.of_nat (length a) - (Z.of_nat (length a) + 1) + 1) with 0 by lia.
  destruct (Z.ltb_spec (Z.of_nat (length a) + 1) 0); [lia | reflexivity].
Qed.

Lemma rolling_window_rows_length a window rows :
  rolling_window a window = Ok rows ->
  length rows = Z.to_nat (Z.of_nat (length a) - window + 1).
Proof.
  unfold rolling_window.
  destruct ((Z.of_nat (length a) - window + 1 <? 0) || (window <? 0));
    [discriminate|].
  intros [= <-]. rewrite length_fmap. apply length_seqZ.
Qed.

(** X15: rolling_window raises exactly when the window is negative or
    longer than the series plus one.  Otherwise the view has
    len(a) - window + 1 rows of window entries each, and every entry it
    reads is an element of the buffer: entry j of row i is a[i + j] with
    i + j < len(a), so the strided view never reads outside the array. *)
Theorem rolling_window_shape (a : list float) (window : Z) :
  (raises (rolling_window a window) <->
   window < 0 \/ Z.of_nat (length a) + 1 < window) /\
  (forall rows, rolling_window a window = Ok rows ->
     length rows = Z.to_nat (Z.of_nat (length a) - window + 1) /\
     (forall r, r ∈ rows -> length r = Z.to_nat window) /\
     (forall (i j : nat) r x,
         rows !! i = Some r -> r !! j = Some x ->
         (i + j < length a)%nat /\ a !! (i + j)%nat = Some x)).
Proof.
  split; [apply rolling_window_raises|].
  intros rows Hrows.
  assert (Hok : ~ raises (rolling_window a window)) by (rewrite Hrows; tauto).
  rewrite rolling_window_raises in Hok.
  destruct (Z.eq_dec window (Z.of_nat (length a) + 1)) as [->|Hne].
  { rewrite rolling_window_edge in Hrows. injection Hrows as <-.
    split; [simpl; lia|]. split.
    - intros r Hr. apply elem_of_nil in Hr. contradiction.
    - intros i j r x Hr. rewrite lookup_nil in Hr. discriminate. }
  rewrite rolling_window_rows in Hrows by lia. injection Hrows as <-.
  split; [rewrite length_fmap; apply length_seqZ|].
  assert (Hrow : forall (i : nat) r,
             ((fun i => take (Z.to_nat window) (drop (Z.to_nat i) a))
                <$> range (Z.of_nat (length a) - window + 1)) !! i = Some r ->
             Z.of_nat i + window <= Z.of_nat (length a) /\
             r = take (Z.to_nat window) (drop i a)).
  { intros i r. rewrite list_lookup_fmap. unfold range.
    destruct (seqZ 0 _ !! i) as [z|] eqn:Hz; [|discriminate].
    apply lookup_seqZ in Hz as [-> Hz]. simpl. intros [= <-].
    rewrite Z.add_0_l, Nat2Z.id. split; [lia | reflexivity]. }
  split.
  - intros r [i Hi]%list_elem_of_lookup. apply Hrow in Hi as [Hi ->].
    rewrite length_take, length_drop. lia.
  - intros i j r x Hr Hx. apply Hrow in Hr as [Hi ->].
    apply lookup_take_Some in Hx as [Hx Hj]. rewrite lookup_drop in Hx.
    split; [apply lookup_lt_Some in Hx; exact Hx | exact Hx].
Qed.

Lemma rolling_window_shape_witness :
  raises (rolling_window [1; 2; 3]%float 5).
Proof.
  apply (proj1 (rolling_window_shape [1; 2; 3]%float 5)). right. simpl. lia.
Defined.

(** X16: for a window size between 0 and the length of the series, and
    whatever the order in which NumPy's reduction adds a row up,
    moving_average returns one value per window position, the value at
    position i being the sum of a[i : i + window], as that reduction
    computes it, divided by window. *)
Theorem moving_average_windows (a : list float) (window : Z) :
  0 <= window <= Z.of_nat (length a) ->
  forall reduce : list float -> float,
  exists avg,
    moving_average_with reduce a window = Ok avg /\
    length avg = Z.to_nat (Z.of_nat (length a) - window + 1) /\
    forall i : nat, (i < length avg)%nat ->
      avg !! i =
      Some (reduce (take (Z.to_nat window) (drop i a)) / Np.of_int window)%float.
Proof.
  intros Hw reduce. eexists. split.
  { unfold moving_average_with. rewrite rolling_window_rows by exact Hw.
    reflexivity. }
  rewrite !length_fmap. unfold range. rewrite length_seqZ.
  split; [reflexivity|]. intros i Hi.
  rewrite !list_lookup_fmap, (lookup_seqZ_lt 0 _ i) by lia.
  cbn [fmap option_fmap option_map]. rewrite Z.add_0_l, Nat2Z.id.
  unfold Np.mean_with. rewrite length_take, length_drop.
  do 3 f_equal. lia.
Qed.

Lemma moving_average_windows_witness :
  exists avg, moving_average [1; 2; 3; 4; 5]%float 3 = Ok avg /\ length avg = 3%nat.
Proof.
  destruct (moving_average_windows [1; 2; 3; 4; 5]%float 3 ltac:(simpl; lia) Np.sum)
    as (avg & Heq & Hlen & _).
  exists avg. split; [exact Heq | exact Hlen].
Defined.

(** X17: no value moving_std returns is negative: each one is a NaN or
    compares greater than or equal to zero. *)
Theorem moving_std_not_negative (a : list float) (window : Z) sig :
  moving_std a window = Ok sig ->
  forall s, s ∈ sig -> (s <? 0)%float = false.
Proof.
  unfold moving_std, moving_std_with.
  destruct (rolling_window a window) as [w|]; [|discriminate].
  simpl. intros [= <-] s (row & -> & _)%list_elem_of_fmap.
  unfold Np.std_with. apply sqrt_not_negative.
Qed.

Lemma moving_std_not_negative_witness :
  exists sig,
    moving_std [1; 2; 3; 4; 5]%float 3 = Ok sig /\
    forall s, s ∈ sig -> (s <? 0)%float = false.
Proof.
  eexists. split; [vm_compute; reflexivity|].
  apply (moving_std_not_negative [1; 2; 3; 4; 5]%float 3).
  vm_compute. reflexivity.
Defined.

(** X18: the profile length agrees with the functions that are sized by
    it.  For a float64 series ts and a window m >= 0, get_profile_length
    returns len(ts) - m + 1; when this is not negative, the skip mask
    computed for it, moving_average and moving_std all succeed and have
    exactly that many entries; when it is negative (the window is longer
    than the series plus one) all three raise. *)
Theorem profile_length_consistent (ts : list float) ts_b (m : Z) :
  0 <= m ->
  exists pl,
    get_profile_length (PyArray [length ts] (PyFloat <$> ts)) ts_b m = Ok pl /\
    pl = Z.of_nat (length ts) - m + 1 /\
    (0 <= pl ->
     exists skip_loc avg sig,
       find_skip_locations ts pl m = Ok skip_loc /\
       moving_average ts m = Ok avg /\
       moving_std ts m = Ok sig /\
       length skip_loc = Z.to_nat pl /\
       length avg = Z.to_nat pl /\
       length sig = Z.to_nat pl) /\
    (pl < 0 ->
     raises (find_skip_locations ts pl m) /\
     raises (moving_average ts m) /\
     raises (moving_std ts m)).
Proof.
  intros Hm. eexists. split; [reflexivity|]. split; [reflexivity|]. split.
  - intros Hpl. rewrite find_skip_locations_eq by exact Hpl.
    unfold moving_average, moving_std, moving_average_with, moving_std_with.
    destruct (rolling_window ts m) as [rows|e] eqn:Hrows.
    + pose proof (rolling_window_rows_length ts m rows Hrows) as Hlen.
      do 3 eexists. repeat split; try reflexivity.
      all: rewrite !length_fmap, ?length_seqZ; try exact Hlen; reflexivity.
    + exfalso.
      assert (Hr : raises (rolling_window ts m)) by (rewrite Hrows; exact I).
      apply rolling_window_raises in Hr. lia.
  - intros Hpl.
    assert (Hr : raises (rolling_window ts m))
      by (apply rolling_window_raises; lia).
    unfold find_skip_locations, moving_average, moving_std,
      moving_average_with, moving_std_with.
    destruct (Z.ltb_spec (Z.of_nat (length ts) - m + 1) 0); [|lia].
    destruct (rolling_window ts m); [contradiction|].
    repeat split.
Qed.

Lemma profile_length_consistent_witness :
  exists pl,
    get_profile_length (PyArray [5%nat] (PyFloat <$> [1; 2; 3; 4; 5]%float))
      PyNone 3 = Ok pl /\ pl = 3.
Proof.
  destruct (profile_length_consistent [1; 2; 3; 4; 5]%float PyNone 3 ltac:(lia))
    as (pl & Heq & Hpl & _).
  exists pl. split; [exact Heq | exact Hpl].
Defined.

(** ** Sliding dot products: lengths and refusals *)

Lemma slice_length {A} (l : list A) start stop :
  0 <= start ->
  length (slice l start stop) =
  Z.to_nat (slice_bound (Z.of_nat (length l)) stop
            - Z.min start (Z.of_nat (length l))).
Proof.
  intros Hs. unfold slice. rewrite length_take, length_drop.
  assert (Hstart : slice_bound (Z.of_nat (length l)) start
                   = Z.min start (Z.of_nat (length l))).
  { unfold slice_bound. destruct (Z.ltb_spec start 0); [lia | reflexivity]. }
  assert (slice_bound (Z.of_nat (length l)) stop <= Z.of_nat (length l)).
  { unfold slice_bound. destruct (Z.ltb_spec stop 0); lia. }
  rewrite Hstart. lia.
Qed.

Lemma slice_last {A} (l : list A) :
  l <> [] -> length (slice l (-1) (Z.of_nat (length l))) = 1%nat.
Proof.
  intros Hl. assert (0 < length l)%nat by (destruct l; [contradiction | simpl; lia]).
  unfold slice, slice_bound. rewrite length_take, length_drop.
  destruct (Z.ltb_spec (-1) 0); [|lia].
  destruct (Z.ltb_spec (Z.of_nat (length l)) 0); lia.
Qed.

Lemma np_fft_run kernel (a : list complex) :
  (0 < length a)%nat -> np_fft kernel a = Ok (kernel a).
Proof.
  intros Ha. unfold np_fft. destruct (Nat.eqb_spec (length a) 0); [lia|].
  reflexivity.
Qed.

Lemma complex_times_same (a b : list complex) :
  length a = length b -> complex_times a b = Ok (zip_with complex_mul a b).
Proof.
  intros H. unfold complex_times. rewrite H, Nat.eqb_refl. reflexivity.
Qed.

Section Kernels.

(** What NumPy documents of its kernels: a transform has as many points as
    its input, and a full convolution of n and m points has n + m - 1. *)
Variables fft ifft : list complex -> list complex.
Variable convolve : list float -> list float -> list float.
Hypothesis fft_length : forall a, length (fft a) = length a.
Hypothesis ifft_length : forall a, length (ifft a) = length a.
Hypothesis convolve_length :
  forall a v, length (convolve a v) = (length a + length v - 1)%nat.

(** X19: sliding_dot_product returns len(ts) - len(query) + 1 values when
    the query is not empty and not longer than the series; for a query
    longer than a non-empty series it does not raise but returns an empty
    array; an empty series or query is refused with a ValueError. *)
Theorem sliding_dot_product_length (ts query : list float) :
  ((1 <= length query <= length ts)%nat ->
   exists dp,
     sliding_dot_product convolve ts query = Ok dp /\
     length dp = (length ts - length query + 1)%nat) /\
  ((1 <= length ts < length query)%nat ->
   sliding_dot_product convolve ts query = Ok []) /\
  (ts = [] \/ query = [] -> raises (sliding_dot_product convolve ts query)).
Proof.
  assert (Hok : (1 <= length ts)%nat -> (1 <= length query)%nat ->
                exists dp,
                  sliding_dot_product convolve ts query = Ok dp /\
                  length dp =
                  Z.to_nat (Z.of_nat (length ts) - (Z.of_nat (length query) - 1))).
  { intros Hn Hm. unfold sliding_dot_product, np_convolve.
    rewrite length_reverse.
    destruct (Nat.eqb_spec (length ts) 0); [lia|].
    destruct (Nat.eqb_spec (length query) 0); [lia|]. simpl.
    eexists. split; [reflexivity|].
    rewrite length_fmap, slice_length by lia.
    rewrite convolve_length, length_reverse. unfold slice_bound.
    destruct (Z.ltb_spec (Z.of_nat (length ts)) 0); lia. }
  split; [|split].
  - intros Hm. destruct (Hok ltac:(lia) ltac:(lia)) as (dp & Heq & Hlen).
    exists dp. split; [exact Heq | lia].
  - intros Hm. destruct (Hok ltac:(lia) ltac:(lia)) as (dp & Heq & Hlen).
    rewrite Heq. f_equal. apply nil_length_inv. lia.
  - intros H. unfold sliding_dot_product, np_convolve.
    destruct H as [-> | ->]; simpl; [exact I|].
    destruct (length ts =? 0)%nat; exact I.
Qed.

(** X20: fft_convolve returns len(ts) - len(query) + 1 values when the
    query is not empty and not longer than the series; a query longer than
    the series and an empty series are refused with a ValueError; an empty
    query is not refused: it gives a single value, the last point of the
    inverse transform. *)
Theorem fft_convolve_length (ts query : list float) :
  ((1 <= length query <= length ts)%nat ->
   exists dp,
     fft_convolve fft ifft ts query = Ok dp /\
     length dp = (length ts - length query + 1)%nat) /\
  ((length ts < length query)%nat \/ ts = [] ->
   raises (fft_convolve fft ifft ts query)) /\
  (ts <> [] ->
   exists dp, fft_convolve fft ifft ts [] = Ok dp /\ length dp = 1%nat).
Proof.
  assert (Hrun : forall q : list float,
             (1 <= length ts)%nat -> (length q <= length ts)%nat ->
             exists z : list (float * float),
               fft_convolve fft ifft ts q =
                 Ok (fst <$> slice z (Z.of_nat (length q) - 1)
                                     (Z.of_nat (length ts))) /\
               length z = length ts).
  { intros q Hn Hm.
    assert (Hy : length (of_real <$> reverse q ++
                   replicate (Z.to_nat (Z.of_nat (length ts)
                                        - Z.of_nat (length q))) 0%float)
                 = length ts).
    { rewrite length_fmap, length_app, length_reverse, length_replicate. lia. }
    unfold fft_convolve.
    rewrite np_fft_run by (rewrite length_fmap; lia). cbn [bind].
    destruct (Z.ltb_spec (Z.of_nat (length ts) - Z.of_nat (length q)) 0);
      [lia|]. cbn [bind].
    rewrite np_fft_run by (rewrite Hy; lia). cbn [bind].
    rewrite complex_times_same
      by (rewrite !fft_length, Hy, length_fmap; reflexivity).
    cbn [bind].
    rewrite np_fft_run
      by (rewrite length_zip_with, !fft_length, Hy, length_fmap; lia).
    cbn [bind]. eexists. split; [reflexivity|].
    rewrite ifft_length, length_zip_with, !fft_length, Hy, length_fmap. lia. }
  split; [|split].
  - intros Hm. destruct (Hrun query ltac:(lia) ltac:(lia)) as (z & Heq & Hz).
    eexists. split; [exact Heq|].
    rewrite length_fmap, slice_length by lia.
    rewrite Hz. unfold slice_bound.
    destruct (Z.ltb_spec (Z.of_nat (length ts)) 0); lia.
  - intros H. unfold fft_convolve, np_fft. rewrite length_fmap.
    destruct (Nat.eqb_spec (length ts) 0) as [H0|H0]; [exact I|]. simpl.
    destruct H as [Hlt | ->]; [|contradiction].
    destruct (Z.ltb_spec (Z.of_nat (length ts) - Z.of_nat (length query)) 0);
      [exact I | lia].
  - intros Hts.
    assert (0 < length ts)%nat by (destruct ts; [contradiction | simpl; lia]).
    destruct (Hrun [] ltac:(lia) ltac:(simpl; lia)) as (z & Heq & Hz).
    eexists. split; [exact Heq|].
    rewrite length_fmap. simpl. rewrite <- Hz.
    apply slice_last. intros ->. simpl in Hz. lia.
Qed.

End Kernels.

Lemma direct_convolve_length a v :
  length (direct_convolve a v) = (length a + length v - 1)%nat.
Proof.
  unfold direct_convolve, range. rewrite length_fmap, length_seqZ. lia.
Qed.

Lemma sliding_dot_product_length_witness :
  exists dp,
    sliding_dot_product direct_convolve [1; 2; 3; 4; 5]%float [1; 2; 3]%float
      = Ok dp /\
    length dp = 3%nat.
Proof.
  apply (proj1 (sliding_dot_product_length direct_convolve direct_convolve_length
                  [1; 2; 3; 4; 5]%float [1; 2; 3]%float)).
  simpl. lia.
Defined.

Lemma fft_convolve_length_witness :
  exists dp,
    fft_convolve (fun a => a) (fun a => a) [1; 2; 3; 4; 5]%float [1; 2; 3]%float
      = Ok dp /\
    length dp = 3%nat.
Proof.
  apply (proj1 (fft_convolve_length (fun a => a) (fun a => a)
                  (fun a => eq_refl) (fun a => eq_refl)
                  [1; 2; 3; 4; 5]%float [1; 2; 3]%float)).
  simpl. lia.
Defined.

(** ** Conversion and validation *)

(** X21: to_np_array returns an array or raises a ValueError.  An array
    comes back as the same array, so converting twice is the same as
    converting once; a list or a tuple of floats becomes a one-dimensional
    array of the same length with the same values; anything that is not a
    list, a tuple or an array is refused. *)
Theorem to_np_array_conversion :
  (forall a b, to_np_array a = Ok b ->
     is_ndarray b = true /\ to_np_array b = Ok b) /\
  (forall a e, to_np_array a = Raise e -> exists msg, e = ValueError msg) /\
  (forall xs,
     to_np_array (PyList (PyFloat <$> xs)) =
       Ok (PyArray [length xs] (PyFloat <$> xs)) /\
     to_np_array (PyTuple (PyFloat <$> xs)) =
       Ok (PyArray [length xs] (PyFloat <$> xs))) /\
  (forall a, is_array_like a = false ->
     to_np_array a = Raise (ValueError "Unable to convert to np.ndarray!")).
Proof.
  split; [|split; [|split]].
  - intros a b Hab. apply to_np_array_is_array in Hab as Hb.
    split; [exact Hb|]. destruct b; try discriminate Hb. reflexivity.
  - apply to_np_array_raises.
  - apply to_np_array_float_list.
  - intros a Ha. unfold to_np_array. destruct a; try discriminate; reflexivity.
Qed.

Lemma to_np_array_conversion_witness :
  is_ndarray (PyArray [2%nat] [PyFloat 1; PyFloat 2]) = true /\
  to_np_array (PyArray [2%nat] [PyFloat 1; PyFloat 2]) =
    Ok (PyArray [2%nat] [PyFloat 1; PyFloat 2]).
Proof.
  apply (proj1 to_np_array_conversion (PyTuple [PyFloat 1; PyFloat 2])).
  reflexivity.
Defined.

(** X22: what precheck_series_and_query_1d returns is settled: both
    results are one-dimensional arrays, validating them again returns
    them unchanged, and the two arguments it accepted count as a
    similarity join. *)
Theorem precheck_series_and_query_1d_stable ts query a q :
  precheck_series_and_query_1d ts query = Ok (a, q) ->
  ndim a = Ok 1%nat /\ ndim q = Ok 1%nat /\
  precheck_series_and_query_1d a q = Ok (a, q) /\
  is_similarity_join ts query = true.
Proof.
  unfold precheck_series_and_query_1d at 1.
  destruct (to_np_array ts) as [a'|e1] eqn:Hts.
  2:{ destruct (to_np_array_raises _ _ Hts) as [msg ->]. discriminate. }
  destruct (to_np_array query) as [q'|e2] eqn:Hq.
  2:{ destruct (to_np_array_raises _ _ Hq) as [msg ->]. discriminate. }
  apply to_np_array_is_array in Hts as Ha. apply to_np_array_is_array in Hq as Hb.
  destruct a' as [| | | |sa da]; try discriminate Ha.
  destruct q' as [| | | |sq dq]; try discriminate Hb.
  simpl. destruct (Nat.eqb_spec (length sa) 1) as [Hsa|Hsa]; [|discriminate].
  simpl. destruct (Nat.eqb_spec (length sq) 1) as [Hsq|Hsq]; [|discriminate].
  simpl. intros [= <- <-]. simpl. rewrite Hsa, Hsq.
  split; [reflexivity|]. split; [reflexivity|]. split.
  - unfold precheck_series_and_query_1d. simpl. rewrite Hsa, Hsq. reflexivity.
  - unfold is_similarity_join.
    assert (Hlike : forall o r, to_np_array o = Ok r -> is_array_like o = true).
    { intros o r. unfold to_np_array.
      destruct o; simpl; try discriminate; reflexivity. }
    rewrite (Hlike _ _ Hts), (Hlike _ _ Hq). reflexivity.
Qed.

Lemma precheck_series_and_query_1d_stable_witness :
  ndim (PyArray [3%nat] [PyFloat 1; PyFloat 2; PyFloat 3]) = Ok 1%nat /\
  ndim (PyArray [2%nat] [PyFloat 1; PyFloat 2]) = Ok 1%nat /\
  precheck_series_and_query_1d
    (PyArray [3%nat] [PyFloat 1; PyFloat 2; PyFloat 3])
    (PyArray [2%nat] [PyFloat 1; PyFloat 2]) =
  Ok (PyArray [3%nat] [PyFloat 1; PyFloat 2; PyFloat 3],
      PyArray [2%nat] [PyFloat 1; PyFloat 2]) /\
  is_similarity_join (PyList [PyFloat 1; PyFloat 2; PyFloat 3])
                     (PyTuple [PyFloat 1; PyFloat 2]) = true.
Proof.
  apply (precheck_series_and_query_1d_stable
           (PyList [PyFloat 1; PyFloat 2; PyFloat 3])
           (PyTuple [PyFloat 1; PyFloat 2])).
  reflexivity.
Defined.

(** X23: every flat list or tuple of floats passes validation, the empty
    one included: the series and the query come back as one-dimensional
    arrays with the same values in the same order, and no minimum length
    is asked of either. *)
Theorem precheck_series_and_query_1d_floats xs ys :
  precheck_series_and_query_1d (PyList (PyFloat <$> xs)) (PyList (PyFloat <$> ys)) =
    Ok (PyArray [length xs] (PyFloat <$> xs), PyArray [length ys] (PyFloat <$> ys)) /\
  precheck_series_and_query_1d (PyTuple (PyFloat <$> xs)) (PyTuple (PyFloat <$> ys)) =
    Ok (PyArray [length xs] (PyFloat <$> xs), PyArray [length ys] (PyFloat <$> ys)) /\
  precheck_series_and_query_1d (PyList []) (PyList []) =
    Ok (PyArray [0%nat] [], PyArray [0%nat] []).
Proof.
  unfold precheck_series_and_query_1d.
  destruct (to_np_array_float_list xs) as [-> ->].
  destruct (to_np_array_float_list ys) as [-> ->].
  repeat split.
Qed.
